(** * HYVEMYND icon generator: [generate-icons.py]

    A shallow embedding of [generate_app_icons] and the properties of the
    icon set it writes.

    The script is a straight-line procedure over two constant tables.  It
    talks to two collaborators that are not part of the repository:

    - the operating system ([os.path.exists], [os.makedirs], opening a file
      for writing), modelled here by a finite map from path strings to
      nodes, threaded through a state-and-exception monad together with
      the console output;
    - the Pillow imaging library.  [Image.new] and the alpha-masked
      [Image.paste] are integer computations and are modelled concretely
      (after Pillow's [Paste.c]).  Decoding, Lanczos resampling, mode
      conversion and PNG encoding are taken as an interface ([Imaging])
      whose laws are the parts of Pillow's contract the script relies on.

    Python's [int(size * 0.7)] is evaluated in IEEE binary64 with the
    standard library's [SpecFloat]. *)

From Stdlib Require Import ZArith Floats.SpecFloat Strings.Ascii Strings.Byte.
From stdpp Require Import gmap strings list fin_maps pretty.

Open Scope Z_scope.

(** ** Python floats (IEEE 754 binary64) *)

Module PyFloat.

Definition prec : Z := 53.
Definition emax : Z := 1024.

(** [float(n)] for a Python integer [n]. *)
Definition of_int (n : Z) : spec_float := binary_normalize prec emax n 0 false.

Definition mul : spec_float → spec_float → spec_float := SFmul prec emax.
Definition div : spec_float → spec_float → spec_float := SFdiv prec emax.

(** The literal [0.7]: the binary64 number nearest to 7/10, that is
    [0x1.6666666666666p-1]. *)
Definition lit_0_7 : spec_float := S754_finite false 6305039478318694 (-53).

(** [int(x)]: truncation towards zero; Python raises on infinities and
    NaN, which is [None] here. *)
Definition to_int (x : spec_float) : option Z :=
  match x with
  | S754_zero _ => Some 0
  | S754_finite s m e =>
      let a := match e with
               | Z0 => Zpos m
               | Zpos k => Zpos m * 2 ^ Zpos k
               | Zneg k => Zpos m / 2 ^ Zpos k
               end in
      Some (if s then - a else a)
  | S754_infinity _ | S754_nan => None
  end.

End PyFloat.

(** ** Pillow images *)

(** A pixel is the list of its band values, each in 0..255
    ([r; g; b; a] for mode ["RGBA"]). *)
Definition pixel : Type := list Z.

Record Image : Type := mkImage {
  mode : string;
  width : Z;
  height : Z;
  (** [info["transparency"]] when it is a colour: the pixel value that
      stands for transparent in an image without alpha band (PNG [tRNS]) *)
  transparency : option pixel;
  pixels : list (list pixel)   (* rows, top to bottom *)
}.

(** [Image.new(mode, (w, h), color)]. *)
Definition Image_new (m : string) (sz : Z * Z) (color : pixel) : Image :=
  {| mode := m; width := sz.1; height := sz.2; transparency := None;
     pixels := replicate (Z.to_nat sz.2) (replicate (Z.to_nat sz.1) color) |}.

(** The pixel in column [x] of row [y], if there is one. *)
Definition pixel_at (im : Image) (x y : Z) : option pixel :=
  if bool_decide (0 ≤ x ∧ 0 ≤ y)
  then pixels im !! Z.to_nat y ≫= λ row, row !! Z.to_nat x
  else None.

(** The alpha band of an ["RGBA"] pixel. *)
Definition alpha (px : pixel) : Z := nth 3 px 0.

(** Pillow's [SHIFTFORDIV255], [DIV255] and [BLEND] ([ImagingUtils.h]),
    with the store into a [UINT8]. *)
Definition SHIFTFORDIV255 (a : Z) : Z := Z.shiftr (Z.shiftr a 8 + a) 8.

Definition DIV255 (a : Z) : Z := SHIFTFORDIV255 (a + 128).

Definition BLEND (mask in1 in2 : Z) : Z :=
  DIV255 (in1 * (255 - mask) + in2 * mask) `mod` 256.

(** [dst.paste(src, (dx, dy), mask)] for an ["RGBA"] mask: the box is
    [src]'s size placed at [(dx, dy)] and clipped to [dst]; inside it every
    band of [dst] is blended with [src] by the mask's alpha; outside it
    [dst] is left alone.  Python updates [dst] in place; here the updated
    image is returned. *)
Definition paste (dst src : Image) (box : Z * Z) (mask : Image) : Image :=
  let blend_at (x y : Z) (out : pixel) : pixel :=
    if bool_decide (box.1 ≤ x < box.1 + width src ∧ box.2 ≤ y < box.2 + height src)
    then match pixel_at src (x - box.1) (y - box.2),
               pixel_at mask (x - box.1) (y - box.2) with
         | Some inp, Some m => zip_with (BLEND (alpha m)) out inp
         | _, _ => out
         end
    else out in
  {| mode := mode dst; width := width dst; height := height dst;
     transparency := transparency dst;
     pixels := imap (λ y row, imap (λ x out, blend_at (Z.of_nat x) (Z.of_nat y) out) row)
                    (pixels dst) |}.

(** Modes that carry an alpha band. *)
Definition alpha_modes : list string := ["LA"; "La"; "PA"; "RGBA"; "RGBa"].
Definition has_alpha (m : string) : bool := bool_decide (m ∈ alpha_modes).

(** Modes with neither alpha band nor palette, whose conversion to
    ["RGBA"] writes alpha 255 ([bit2rgb], [l2rgb], [rgb2rgba] and
    [cmyk2rgb] of [Convert.c]). *)
Definition opaque_modes : list string := ["1"; "L"; "RGB"; "CMYK"].

(** Modes the PNG writer accepts (the keys of [PngImagePlugin._OUTMODES]
    that are image modes, as of Pillow 13, which no longer takes ["I"]);
    any other mode makes [save] raise [OSError]. *)
Definition png_outmodes : list string :=
  ["1"; "L"; "LA"; "I;16"; "I;16B"; "P"; "RGB"; "RGBA"].

(** The part of Pillow the script uses and that is not modelled above. *)
Class Imaging : Type := {
  (** [Image.open] recognises the file from its header *)
  identify : list byte → bool;
  (** the image once its pixel data are loaded, [None] when Pillow cannot
      read the file *)
  decode : list byte → option Image;
  (** data are loaded only from a file that was opened *)
  decode_identified : ∀ bs im, decode bs = Some im → identify bs = true;
  (** [im.resize((w, h), Image.Resampling.LANCZOS)] *)
  resize : Image → Z * Z → Image;
  (** [im.convert(mode)] *)
  convert : Image → string → Image;
  (** the bytes of the PNG file written for an image *)
  png_encode : Image → list byte;
  resize_width : ∀ im sz, width (resize im sz) = sz.1;
  resize_height : ∀ im sz, height (resize im sz) = sz.2;
  resize_mode : ∀ im sz, mode (resize im sz) = mode im;
  (** the new image gets a copy of [info] *)
  resize_transparency : ∀ im sz, transparency (resize im sz) = transparency im;
  convert_width : ∀ im m, width (convert im m) = width im;
  convert_height : ∀ im m, height (convert im m) = height im;
  convert_mode : ∀ im m, mode (convert im m) = m;
  (** converting an image without alpha band, palette or transparent
      colour to ["RGBA"] fills alpha with 255 *)
  convert_opaque : ∀ im x y px,
    mode im ∈ opaque_modes → transparency im = None →
    pixel_at (convert im "RGBA") x y = Some px → px !! 3%nat = Some 255;
  (** converting an ["RGB"] image with a transparent colour to ["RGBA"]
      gives the pixels of that colour alpha 0 ([rgbT2rgba]) *)
  convert_keyed : ∀ im x y key px,
    mode im = "RGB" → transparency im = Some key →
    pixel_at im x y = Some key →
    pixel_at (convert im "RGBA") x y = Some px → px !! 3%nat = Some 0
}.

(** ** The file system and the console *)

Inductive node : Type :=
| File (content : list byte)
| Dir.

(** Paths are the strings the script forms: relative to the working
    directory, ['/']-separated, without [.], [..] or doubled separators.
    A path names at most one node. *)
Record world : Type := World {
  fs : gmap string node;
  stdout : list string
}.

Inductive exn : Type :=
| FileNotFoundError
| FileExistsError
| NotADirectoryError
| IsADirectoryError
| UnidentifiedImageError
| OverflowError
| OSError.

Inductive outcome (A : Type) : Type :=
| Return (a : A)
| Raise (e : exn).
Arguments Return {A} a.
Arguments Raise {A} e.

(** Computations: they transform the world and return or raise; what was
    written before an exception stays written. *)
Definition M (A : Type) : Type := world → world * outcome A.

Definition ret {A} (a : A) : M A := λ w, (w, Return a).
Definition raise {A} (e : exn) : M A := λ w, (w, Raise e).
Definition bind {A B} (c : M A) (f : A → M B) : M B := λ w,
  match c w with
  | (w', Return a) => f a w'
  | (w', Raise e) => (w', Raise e)
  end.

Notation "'let*' x := c1 'in' c2" := (bind c1 (λ x, c2))
  (at level 10, x name, c1 at level 100, c2 at level 200).
Notation "c1 ;;; c2" := (bind c1 (λ _, c2))
  (at level 100, c2 at level 200, right associativity).

(** [for x in l: body(x)] *)
Fixpoint for_each {A} (l : list A) (body : A → M unit) : M unit :=
  match l with
  | [] => ret tt
  | x :: l' => body x ;;; for_each l' body
  end.

Definition print (line : string) : M unit := λ w,
  (World (fs w) (stdout w ++ [line]), Return tt).

(** The directories on the way to [p], outermost first, ending with [p]
    itself: ["a"; "a/b"; "a/b/c"] for ["a/b/c"]. *)
Fixpoint prefixes_from (acc s : string) : list string :=
  match s with
  | EmptyString => [acc]
  | String c r =>
      if Ascii.eqb c "/"%char then acc :: prefixes_from (acc +:+ "/") r
      else prefixes_from (acc +:+ String c EmptyString) r
  end.

Definition prefixes (p : string) : list string :=
  filter (λ d, d ≠ EmptyString) (prefixes_from EmptyString p).

(** The directory a path lives in; [EmptyString] is the working directory. *)
Definition parent_dir (p : string) : string :=
  match reverse (prefixes_from EmptyString p) with
  | _ :: d :: _ => d
  | _ => EmptyString
  end.

(** [os.makedirs(name, exist_ok=True)]: every directory on the way that is
    missing is created, one that is there is kept, a file in the way
    raises. *)
Fixpoint makedirs_along (ds : list string) : M unit :=
  match ds with
  | [] => ret tt
  | d :: rest => λ w,
      match fs w !! d with
      | None => makedirs_along rest (World (<[d := Dir]> (fs w)) (stdout w))
      | Some Dir => makedirs_along rest w
      | Some (File _) =>
          (w, Raise (match rest with [] => FileExistsError | _ => NotADirectoryError end))
      end
  end.

Definition os_makedirs (name : string) : M unit := makedirs_along (prefixes name).

(** The error of opening a file whose directory cannot be reached: the
    first node on the way that is not a directory decides, [ENOTDIR] for
    a regular file, [ENOENT] for a missing one. *)
Fixpoint blocked_by (ds : list string) (m : gmap string node) : exn :=
  match ds with
  | [] => FileNotFoundError
  | d :: rest =>
      match m !! d with
      | Some Dir => blocked_by rest m
      | Some (File _) => NotADirectoryError
      | None => FileNotFoundError
      end
  end.

(** ** The generator *)

Definition android_sizes : list (Z * string) :=
  [(36, "ldpi"); (48, "mdpi"); (72, "hdpi");
   (96, "xhdpi"); (144, "xxhdpi"); (192, "xxxhdpi")].

Definition android_icon_dir : string := "android/app/src/main/res".

Definition favicon_sizes : list Z := [16; 32; 48; 64; 128; 256].

Definition newline : string := String "010"%char EmptyString.

Definition closing_lines : list string :=
  [newline +:+ "🎉 All app icons generated!";
   "📋 To use your own logo:";
   "   1. Replace www/assets/images/logo.png with your 512x512 PNG";
   "   2. Run: python generate-icons.py";
   "   3. Rebuild Android: npx cap build android"].

(** [int(x)] *)
Definition int (x : spec_float) : M Z :=
  match PyFloat.to_int x with
  | Some z => ret z
  | None => raise OverflowError
  end.

(** Lines 33-34: the side of the padded logo and the padding around it. *)
Definition padding_layout (size : Z) : M (Z * Z) :=
  let* padded_size := int (PyFloat.mul (PyFloat.of_int size) PyFloat.lit_0_7) in
  let padding := (size - padded_size) `div` 2 in
  ret (padded_size, padding).

(** ** The paths of the script *)

Definition icon_dir_of (density : string) : string :=
  android_icon_dir +:+ "/mipmap-" +:+ density.

Definition favicon_path (size : Z) : string :=
  "www/assets/images/favicon-" +:+ pretty size +:+ ".png".

(** The directories [os.makedirs] may create and the files [save] writes. *)
Definition android_dirs : list string :=
  android_sizes ≫= λ entry, prefixes (icon_dir_of entry.2).


Definition android_files : list string :=
  android_sizes ≫= λ entry,
    [icon_dir_of entry.2 +:+ "/ic_launcher.png";
     icon_dir_of entry.2 +:+ "/ic_launcher_round.png";
     icon_dir_of entry.2 +:+ "/ic_launcher_foreground.png"].

Definition output_files : list string := android_files ++ map favicon_path favicon_sizes.

Definition web_dir : string := "www/assets/images".

(** The default argument of line 4. *)
Definition default_logo_path : string := "www/assets/images/logo.png".

Definition script_paths : list string :=
  default_logo_path :: android_dirs ++ output_files ++ prefixes web_dir.

(** ** Path resolution

    The keys of the file system are the names of its nodes, one name for
    each node.  A path string may spell the name of a node in many ways
    ([./x], [a//x], an absolute path, a link; another case where the file
    system ignores case); [resolve] gives the name of the node a path
    string denotes.  The relative paths the script forms itself are taken
    as the names of their nodes. *)
Class Naming : Type := {
  resolve : string → string;
  resolve_script : ∀ p, p ∈ script_paths → resolve p = p
}.

(** What [Image.open] returns, an [ImageFile]: the file has been opened
    and identified from its header; its bytes are read when the pixel
    data are first needed. *)
Definition ImageFile : Type := list byte.

Section Generator.

Context `{Imaging} {naming : Naming}.

(** [os.path.exists(path)] *)
Definition os_path_exists (p : string) : M bool := λ w,
  (w, Return (bool_decide (is_Some (fs w !! resolve p)))).

(** [Image.open(path)]: the file is opened and identified; Pillow reads
    the pixel data at the first [resize]. *)
Definition Image_open (p : string) : M ImageFile := λ w,
  match fs w !! resolve p with
  | None => (w, Raise FileNotFoundError)
  | Some Dir => (w, Raise IsADirectoryError)
  | Some (File bytes) =>
      if identify bytes then (w, Return bytes)
      else (w, Raise UnidentifiedImageError)
  end.

(** [logo.load()], which every [resize] calls first: the pixel data are
    read from the file [Image.open] has opened, and data that cannot be
    read (a truncated file) raise [OSError].  The loaded image stays in
    the object; decoding the same bytes again gives that image. *)
Definition Image_load (logo : ImageFile) : M Image :=
  match decode logo with
  | Some im => ret im
  | None => raise OSError
  end.

(** [im.save(path)] for a path ending in [.png]: the file is opened with
    ["w+b"] (its directory must exist, or the way to it decides the
    error), then the PNG writer runs; if it rejects the mode, a file that
    was there is left empty. *)
Definition save (im : Image) (p : string) : M unit := λ w,
  match (if decide (parent_dir p = EmptyString) then Some Dir
         else fs w !! parent_dir p) with
  | Some Dir =>
      match fs w !! p with
      | Some Dir => (w, Raise IsADirectoryError)
      | existing =>
          if bool_decide (mode im ∈ png_outmodes)
          then (World (<[p := File (png_encode im)]> (fs w)) (stdout w), Return tt)
          else (World (match existing with
                       | Some _ => <[p := File []]> (fs w)
                       | None => fs w
                       end) (stdout w), Raise OSError)
      end
  | _ => (w, Raise (blocked_by (prefixes (parent_dir p)) (fs w)))
  end.

(** The body of the loop over the Android table (lines 29-54). *)
Definition android_entry (logo : ImageFile) (entry : Z * string) : M unit :=
  let '(size, density) := entry in
  let icon_dir := android_icon_dir +:+ "/mipmap-" +:+ density in
  os_makedirs icon_dir ;;;
  let* layout := padding_layout size in
  let padded_size := layout.1 in
  let padding := layout.2 in
  let foreground := Image_new "RGBA" (size, size) [0; 0; 0; 0] in
  let* loaded := Image_load logo in
  let logo_resized := resize loaded (padded_size, padded_size) in
  let logo_resized :=
    if bool_decide (mode logo_resized ≠ "RGBA")
    then convert logo_resized "RGBA" else logo_resized in
  let foreground := paste foreground logo_resized (padding, padding) logo_resized in
  let resized := resize loaded (size, size) in
  save resized (icon_dir +:+ "/ic_launcher.png") ;;;
  save resized (icon_dir +:+ "/ic_launcher_round.png") ;;;
  save foreground (icon_dir +:+ "/ic_launcher_foreground.png") ;;;
  print ("✅ Generated " +:+ pretty size +:+ "x" +:+ pretty size
         +:+ " icons for " +:+ density).

(** The body of the loop over the favicon sizes (lines 59-61). *)
Definition favicon_entry (logo : ImageFile) (size : Z) : M unit :=
  let* loaded := Image_load logo in
  let resized := resize loaded (size, size) in
  save resized ("www/assets/images/favicon-" +:+ pretty size +:+ ".png") ;;;
  print ("✅ Generated favicon-" +:+ pretty size +:+ ".png").

(** Lines 7-67; the five closing [print]s are the loop over
    [closing_lines]. *)
Definition generate_app_icons (logo_path : string) : M unit :=
  let* found := os_path_exists logo_path in
  if negb found then
    print ("Please add your logo as: " +:+ logo_path) ;;;
    print "Recommended: 512x512 PNG with transparent background"
  else
    let* logo := Image_open logo_path in
    for_each android_sizes (android_entry logo) ;;;
    for_each favicon_sizes (favicon_entry logo) ;;;
    for_each closing_lines print.

End Generator.

(** ** What a run writes

    The padding layout in exact arithmetic, the images of one table entry,
    and the list of writes of a whole run in the order they happen. *)

Definition padded_of (size : Z) : Z := (7 * size) `div` 10.
Definition offset_of (size : Z) : Z := (size - padded_of size) `div` 2.

(** The writes of one Android entry, given the contents of the files. *)
Definition entry_writes (icon foreground : list byte) (density : string)
  : list (string * node) :=
  ((λ d, (d, Dir)) <$> prefixes (icon_dir_of density)) ++
  [(icon_dir_of density +:+ "/ic_launcher.png", File icon);
   (icon_dir_of density +:+ "/ic_launcher_round.png", File icon);
   (icon_dir_of density +:+ "/ic_launcher_foreground.png", File foreground)].

(** The writes of a run, over the contents of the files: [icon size] in
    [ic_launcher.png] and [ic_launcher_round.png], [foreground size] in
    [ic_launcher_foreground.png], [favicon size] in the favicon. *)
Definition writes_with (icon foreground favicon : Z → list byte)
  : list (string * node) :=
  (android_sizes ≫= λ entry, entry_writes (icon entry.1) (foreground entry.1) entry.2)
  ++ (favicon_sizes ≫= λ size, [(favicon_path size, File (favicon size))]).

Definition android_line (entry : Z * string) : string :=
  "✅ Generated " +:+ pretty entry.1 +:+ "x" +:+ pretty entry.1
  +:+ " icons for " +:+ entry.2.

Definition favicon_line (size : Z) : string :=
  "✅ Generated favicon-" +:+ pretty size +:+ ".png".

Definition all_lines : list string :=
  map android_line android_sizes ++ map favicon_line favicon_sizes ++ closing_lines.

Section Images.

Context `{Imaging}.

(** The image handed to [paste], as source and as mask. *)
Definition foreground_source (logo : Image) (size : Z) : Image :=
  let logo_resized := resize logo (padded_of size, padded_of size) in
  if bool_decide (mode logo_resized ≠ "RGBA")
  then convert logo_resized "RGBA" else logo_resized.

Definition foreground_of (logo : Image) (size : Z) : Image :=
  paste (Image_new "RGBA" (size, size) [0; 0; 0; 0])
        (foreground_source logo size)
        (offset_of size, offset_of size)
        (foreground_source logo size).

Definition icon_bytes (logo : Image) (size : Z) : list byte :=
  png_encode (resize logo (size, size)).

Definition foreground_bytes (logo : Image) (size : Z) : list byte :=
  png_encode (foreground_of logo size).

Definition android_writes (logo : Image) (entry : Z * string) : list (string * node) :=
  entry_writes (icon_bytes logo entry.1) (foreground_bytes logo entry.1) entry.2.

Definition favicon_writes (logo : Image) (size : Z) : list (string * node) :=
  [(favicon_path size, File (icon_bytes logo size))].

Definition all_writes (logo : Image) : list (string * node) :=
  writes_with (icon_bytes logo) (foreground_bytes logo) (icon_bytes logo).

End Images.

(** The outcome of a sequence of writes on a file system. *)
Definition apply_writes (ws : list (string * node)) (m : gmap string node)
  : gmap string node :=
  foldl (λ acc kv, <[kv.1 := kv.2]> acc) m ws.

(** The node the last write to [k] leaves there, if [k] is written at all. *)
Fixpoint last_write (ws : list (string * node)) (k : string) : option node :=
  match ws with
  | [] => None
  | kv :: rest =>
      match last_write rest k with
      | Some v => Some v
      | None => if decide (kv.1 = k) then Some kv.2 else None
      end
  end.

(** A file system on which a run cannot fail: nothing but directories
    where directories are needed, nothing but files where files go, and
    the web asset directory in place. *)
Record fs_ready (m : gmap string node) : Prop := {
  ready_dirs : ∀ d, d ∈ android_dirs → m !! d = None ∨ m !! d = Some Dir;
  ready_files : ∀ f, f ∈ output_files → m !! f ≠ Some Dir;
  ready_web : m !! web_dir = Some Dir
}.

(** A write the generator may perform. *)
Definition expected_write (kv : string * node) : Prop :=
  match kv.2 with
  | Dir => kv.1 ∈ android_dirs
  | File _ => kv.1 ∈ output_files
  end.

(** A check of [fs_ready] for a file system given by its list of writes. *)
Definition readyb (ws : list (string * node)) : bool :=
  forallb (λ d, match last_write ws d with
                | None | Some Dir => true
                | Some (File _) => false
                end) android_dirs
  && forallb (λ f, match last_write ws f with
                   | Some Dir => false
                   | _ => true
                   end) output_files
  && match last_write ws web_dir with Some Dir => true | _ => false end.

(** ** A small implementation of the imaging interface

    Nearest-neighbour resampling and an uncompressed container (a mode
    tag, width, height, then the bands of every pixel).  It shows that
    the interface can be met and gives inputs to run the generator on. *)
Module Raw.

Definition byte_of_Z (z : Z) : byte :=
  default x00 (Byte.of_N (Z.to_N (z `mod` 256))).

Definition Z_of_byte (b : byte) : Z := Z.of_N (Byte.to_N b).

Definition mode_tag (m : string) : Z :=
  if decide (m = "RGB") then 0 else if decide (m = "RGBA") then 1
  else if decide (m = "L") then 2 else 255.

Definition tag_mode (t : Z) : option (string * Z) :=
  if decide (t = 0) then Some ("RGB", 3)
  else if decide (t = 1) then Some ("RGBA", 4)
  else if decide (t = 2) then Some ("L", 1) else None.

Definition encode (im : Image) : list byte :=
  byte_of_Z (mode_tag (mode im)) :: byte_of_Z (width im) :: byte_of_Z (height im)
  :: map byte_of_Z (concat (concat (pixels im))).

(** The header is a known tag, a width and a height. *)
Definition identify (bs : list byte) : bool :=
  match bs with
  | t :: w :: h :: _ =>
      bool_decide (Z_of_byte t = 4 ∨ is_Some (tag_mode (Z_of_byte t)))
  | _ => false
  end.

(** The image of a file with tag [t], size [w] x [h] and pixel bytes
    [data]. *)
Definition decode_data (t w h : Z) (data : list byte) (key : option pixel)
  : option Image :=
  match tag_mode t with
  | Some (m, b) =>
      if bool_decide (Z.of_nat (length data) = w * h * b) then
        Some {| mode := m; width := w; height := h; transparency := key;
                pixels :=
                  map (λ y, map (λ x, map (λ i,
                    Z_of_byte (nth (Z.to_nat ((y * w + x) * b + i)) data x00))
                    (seqZ 0 b)) (seqZ 0 w)) (seqZ 0 h) |}
      else None
  | None => None
  end.

(** Tag 4 is ["RGB"] with a transparent colour, which comes before the
    pixels. *)
Definition decode (bs : list byte) : option Image :=
  match bs with
  | t :: w :: h :: data =>
      if decide (Z_of_byte t = 4) then
        match data with
        | r :: g :: b :: data' =>
            decode_data 0 (Z_of_byte w) (Z_of_byte h) data'
                        (Some [Z_of_byte r; Z_of_byte g; Z_of_byte b])
        | _ => None
        end
      else decode_data (Z_of_byte t) (Z_of_byte w) (Z_of_byte h) data None
  | _ => None
  end.

Definition resize (im : Image) (sz : Z * Z) : Image :=
  {| mode := mode im; width := sz.1; height := sz.2;
     transparency := transparency im;
     pixels :=
       map (λ y, map (λ x,
         default [] (pixel_at im (x * width im `div` sz.1) (y * height im `div` sz.2)))
         (seqZ 0 sz.1)) (seqZ 0 sz.2) |}.

Definition to_rgba (keep_alpha : bool) (px : pixel) : pixel :=
  match px with
  | [] => [0; 0; 0; 255]
  | [l] => [l; l; l; 255]
  | [l; a] => [l; l; l; if keep_alpha then a else 255]
  | [r; g; b] => [r; g; b; 255]
  | r :: g :: b :: a :: _ => [r; g; b; if keep_alpha then a else 255]
  end.

(** The ["RGBA"] pixel for [px]: alpha 0 where [px] is the transparent
    colour. *)
Definition keyed_rgba (keep_alpha : bool) (key : option pixel) (px : pixel) : pixel :=
  match key with
  | Some k => if decide (px = k) then <[3%nat := 0]> (to_rgba keep_alpha px)
              else to_rgba keep_alpha px
  | None => to_rgba keep_alpha px
  end.

Definition convert (im : Image) (m : string) : Image :=
  {| mode := m; width := width im; height := height im; transparency := None;
     pixels := if decide (m = "RGBA")
               then (λ row : list pixel,
                       keyed_rgba (has_alpha (mode im)) (transparency im) <$> row)
                    <$> pixels im
               else pixels im |}.

(** A 1 x 1 opaque red ["RGB"] logo and a project tree that holds it. *)
Definition logo_bytes : list byte := [x00; x01; x01; xff; x00; x00].

Definition logo : Image :=
  {| mode := "RGB"; width := 1; height := 1; transparency := None;
     pixels := [[[255; 0; 0]]] |}.

(** The same logo in a file that declares red transparent. *)
Definition keyed_logo_bytes : list byte :=
  [x04; x01; x01; xff; x00; x00; xff; x00; x00].

Definition keyed_logo : Image :=
  {| mode := "RGB"; width := 1; height := 1; transparency := Some [255; 0; 0];
     pixels := [[[255; 0; 0]]] |}.

Definition project_tree (logo_path : string) : list (string * node) :=
  [("www", Dir); ("www/assets", Dir); ("www/assets/images", Dir);
   (logo_path, File logo_bytes)].

End Raw.

(** The small implementation as an instance of the interface. *)
Definition raw_imaging : Imaging.
Proof.
  refine {| identify := Raw.identify; decode := Raw.decode; resize := Raw.resize;
            convert := Raw.convert; png_encode := Raw.encode |};
    try reflexivity.
  - intros [|t [|w [|h data]]] im; try done. unfold Raw.decode, Raw.identify.
    case_decide as Htag; intros Hdec; apply bool_decide_eq_true_2; [by left|].
    right. unfold Raw.decode_data in Hdec.
    by destruct (Raw.tag_mode (Raw.Z_of_byte t)).
  - intros im x y px Hmode Hkey. unfold pixel_at, Raw.convert. cbn [pixels].
    destruct (decide ("RGBA" = "RGBA")) as [_|]; [|done]. rewrite Hkey.
    assert (Hno : has_alpha (mode im) = false).
    { revert Hmode. generalize (mode im). apply Forall_forall.
      repeat constructor. }
    rewrite Hno.
    case_bool_decide; [|done]. rewrite list_lookup_fmap.
    destruct (pixels im !! Z.to_nat y) as [row|]; [|done]. cbn.
    rewrite list_lookup_fmap.
    destruct (row !! Z.to_nat x) as [p|]; [|done]. cbn. intros [= <-].
    by destruct p as [|? [|? [|? [|? ?]]]].
  - intros im x y key px Hmode Hkey. unfold pixel_at, Raw.convert. cbn [pixels].
    destruct (decide ("RGBA" = "RGBA")) as [_|]; [|done]. rewrite Hkey.
    case_bool_decide; [|done]. rewrite list_lookup_fmap.
    destruct (pixels im !! Z.to_nat y) as [row|]; [|done]. cbn.
    rewrite list_lookup_fmap. intros ->. cbn. intros [= <-].
    rewrite decide_True by done.
    by destruct key as [|? [|? [|? [|? ?]]]].
Defined.

(** A project tree with the logo at [logo_path], and the default path. *)
Definition demo_path : string := "www/assets/images/logo.png".

Definition demo_fs (logo_path : string) : gmap string node :=
  apply_writes (Raw.project_tree logo_path) ∅.

(** ** The entry point

    [if __name__ == "__main__": generate_app_icons()], with the default
    argument of line 4. *)
Section Main.

Context `{Imaging} {naming : Naming}.


End Main.

(** ** A run as a sequence of file-system actions

    What [generate_app_icons] does to the world once the source is open:
    one [Mkdir] per directory on the way of each [os.makedirs] ([leaf]
    marks the last one, whose failure is [FileExistsError]), one [Save]
    per [save], one [Print] per [print]. *)
Inductive action : Type :=
| Mkdir (d : string) (leaf : bool)
| Save (im : Image) (p : string)
| Print (line : string).

Fixpoint mkdir_actions (ds : list string) : list action :=
  match ds with
  | [] => []
  | d :: rest => Mkdir d (bool_decide (rest = [])) :: mkdir_actions rest
  end.

Definition entry_actions (icon foreground : Image) (entry : Z * string)
  : list action :=
  mkdir_actions (prefixes (icon_dir_of entry.2)) ++
  [Save icon (icon_dir_of entry.2 +:+ "/ic_launcher.png");
   Save icon (icon_dir_of entry.2 +:+ "/ic_launcher_round.png");
   Save foreground (icon_dir_of entry.2 +:+ "/ic_launcher_foreground.png");
   Print (android_line entry)].

Definition favicon_actions (icon : Image) (size : Z) : list action :=
  [Save icon (favicon_path size); Print (favicon_line size)].

Definition android_actions (icon foreground : Z → Image) : list action :=
  android_sizes ≫= λ entry, entry_actions (icon entry.1) (foreground entry.1) entry.

Definition run_actions (icon foreground favicon : Z → Image) : list action :=
  android_actions icon foreground
  ++ (favicon_sizes ≫= λ size, favicon_actions (favicon size) size)
  ++ (Print <$> closing_lines).

(** What an action needs of the file system the run started on. *)
Inductive path_req : Type :=
| NotFile (d : string)   (* missing or a directory *)
| NotDir (p : string)    (* missing or a file *)
| IsDir (d : string)     (* a directory *)
| Never.                 (* the run itself put the wrong kind of node there *)

Global Instance path_req_eq_dec : EqDecision path_req.
Proof. solve_decision. Defined.

Definition holds_req (m : gmap string node) (r : path_req) : Prop :=
  match r with
  | NotFile d => m !! d = None ∨ m !! d = Some Dir
  | NotDir p => m !! p ≠ Some Dir
  | IsDir d => m !! d = Some Dir
  | Never => False
  end.

Definition mode_req (a : action) : Prop :=
  match a with
  | Save im _ => mode im ∈ png_outmodes
  | _ => True
  end.

Definition line_of (a : action) : list string :=
  match a with
  | Print line => [line]
  | _ => []
  end.

Section Actions.

Context `{Imaging}.

Definition perform (a : action) : M unit :=
  match a with
  | Mkdir d leaf => λ w,
      match fs w !! d with
      | None => (World (<[d := Dir]> (fs w)) (stdout w), Return tt)
      | Some Dir => (w, Return tt)
      | Some (File _) =>
          (w, Raise (if leaf then FileExistsError else NotADirectoryError))
      end
  | Save im p => save im p
  | Print line => print line
  end.

Definition write_of (a : action) : list (string * node) :=
  match a with
  | Mkdir d _ => [(d, Dir)]
  | Save im p => [(p, File (png_encode im))]
  | Print _ => []
  end.

(** The requirements of [a] on the initial file system, when the writes
    [ws] have been made since. *)
Definition req_of (a : action) (ws : list (string * node)) : list path_req :=
  match a with
  | Mkdir d _ =>
      match last_write ws d with
      | None => [NotFile d]
      | Some Dir => []
      | Some (File _) => [Never]
      end
  | Save _ p =>
      (if decide (parent_dir p = EmptyString) then []
       else match last_write ws (parent_dir p) with
            | None => [IsDir (parent_dir p)]
            | Some Dir => []
            | Some (File _) => [Never]
            end)
      ++ match last_write ws p with
         | None => [NotDir p]
         | Some (File _) => []
         | Some Dir => [Never]
         end
  | Print _ => []
  end.

Fixpoint reqs (acts : list action) (ws : list (string * node)) : list path_req :=
  match acts with
  | [] => []
  | a :: rest => req_of a ws ++ reqs rest (ws ++ write_of a)
  end.

End Actions.

(** The requirement is one [fs_ready] grants. *)
Definition ready_req (r : path_req) : bool :=
  match r with
  | NotFile d => bool_decide (d ∈ android_dirs)
  | NotDir p => bool_decide (p ∈ output_files)
  | IsDir d => bool_decide (d = web_dir)
  | Never => false
  end.



(** The nodes are of the same kind. *)
Definition same_kind (n n' : node) : Prop :=
  match n, n' with
  | Dir, Dir => True
  | File _, File _ => True
  | _, _ => False
  end.

(** [w'] is [w] after writes to [paths] and prints: every other path is
    as before, a node that was there is still there and of the same kind,
    and the console has only grown. *)
Record grown_from (paths : list string) (w w' : world) : Prop := {
  grown_frame : ∀ p, p ∉ paths → fs w' !! p = fs w !! p;
  grown_kind : ∀ p n, fs w !! p = Some n → ∃ n', fs w' !! p = Some n' ∧ same_kind n n';
  grown_stdout : stdout w `prefix_of` stdout w'
}.

(** [int(size * 0.7)] is the exact [7 size / 10] rounded down, or one
    less. *)
Definition near_exact (size : Z) : bool :=
  match PyFloat.to_int (PyFloat.mul (PyFloat.of_int size) PyFloat.lit_0_7) with
  | Some padded => bool_decide (padded_of size - 1 ≤ padded ≤ padded_of size)
  | None => false
  end.

(** ** Checks on trees given by their list of writes *)

Definition free_for_dirs (ws : list (string * node)) (ds : list string) : bool :=
  forallb (λ d, match last_write ws d with
                | None | Some Dir => true
                | Some (File _) => false
                end) ds.



(** ** A source in a mode PNG cannot store

    The small container with one more tag, for ["CMYK"], as Pillow reads a
    CMYK JPEG whatever the name of the file. *)
Module RawCMYK.

Definition retag (im : Image) : Image :=
  {| mode := "CMYK"; width := width im; height := height im;
     transparency := transparency im; pixels := pixels im |}.

Definition identify (bs : list byte) : bool :=
  match bs with
  | t :: rest =>
      if decide (Raw.Z_of_byte t = 3) then Raw.identify (x01 :: rest)
      else Raw.identify bs
  | [] => false
  end.

Definition decode (bs : list byte) : option Image :=
  match bs with
  | t :: rest =>
      if decide (Raw.Z_of_byte t = 3) then retag <$> Raw.decode (x01 :: rest)
      else Raw.decode bs
  | [] => None
  end.

(** A 1 x 1 ["CMYK"] logo. *)
Definition logo_bytes : list byte := [x03; x01; x01; x00; xff; xff; x00].

Definition logo : Image :=
  {| mode := "CMYK"; width := 1; height := 1; transparency := None;
     pixels := [[[0; 255; 255; 0]]] |}.

End RawCMYK.


(** ** A small path resolution

    Empty components and [.] components are dropped, as the kernel does
    for a relative path; nothing else is an alias here. *)
Fixpoint components_from (acc s : string) : list string :=
  match s with
  | EmptyString => [acc]
  | String c r =>
      if Ascii.eqb c "/"%char then acc :: components_from EmptyString r
      else components_from (acc +:+ String c EmptyString) r
  end.

Definition join (cs : list string) : string :=
  match cs with
  | [] => EmptyString
  | c :: rest => foldl (λ acc x, acc +:+ "/" +:+ x) c rest
  end.

Definition normpath (p : string) : string :=
  let kept := filter (λ c, c ≠ EmptyString ∧ c ≠ ".")
                     (components_from EmptyString p) in
  match p with
  | String "/"%char _ => "/" +:+ join kept
  | _ => if decide (kept = []) then "." else join kept
  end.

Definition posix_naming : Naming.
Proof.
  refine {| resolve := normpath |}.
  apply Forall_forall. apply (bool_decide_unpack _). vm_compute. reflexivity.
Defined.

(** ** More small trees *)

(** A half-transparent, a clear and an opaque ["RGBA"] pixel as 1 x 1
    logos. *)
Definition glass_logo : Image :=
  {| mode := "RGBA"; width := 1; height := 1; transparency := None;
     pixels := [[[200; 100; 50; 128]]] |}.

Definition clear_logo : Image :=
  {| mode := "RGBA"; width := 1; height := 1; transparency := None;
     pixels := [[[200; 100; 50; 0]]] |}.

(** The project tree with the logo whose file declares red transparent. *)
Definition keyed_tree : list (string * node) :=
  [("www", Dir); ("www/assets", Dir); ("www/assets/images", Dir);
   (demo_path, File Raw.keyed_logo_bytes)].

(** The red logo's file cut short after its first pixel byte. *)
Definition truncated_logo_bytes : list byte := [x00; x01; x01; xff].

(** The logo alone, outside any directory. *)
Definition bare_tree (source : list byte) : list (string * node) :=
  [("logo.png", File source)].

(** The logo beside a regular file called [android]. *)
Definition blocked_tree : list (string * node) :=
  [("android", File []); ("logo.png", File Raw.logo_bytes)].

(** ** The monad and the write lists *)

Lemma bind_return {A B} (c : M A) (f : A → M B) w w' a :
  c w = (w', Return a) → bind c f w = f a w'.
Proof. unfold bind. by intros ->. Qed.

Lemma apply_writes_cons kv ws m :
  apply_writes (kv :: ws) m = apply_writes ws (<[kv.1 := kv.2]> m).
Proof. reflexivity. Qed.

Lemma apply_writes_app ws1 ws2 m :
  apply_writes (ws1 ++ ws2) m = apply_writes ws2 (apply_writes ws1 m).
Proof. apply foldl_app. Qed.

Lemma lookup_apply_writes ws : ∀ m k,
  apply_writes ws m !! k = match last_write ws k with
                           | Some v => Some v
                           | None => m !! k
                           end.
Proof.
  induction ws as [|kv ws IH]; intros m k; [done|].
  rewrite apply_writes_cons, IH. cbn [last_write].
  destruct (last_write ws k); [done|].
  rewrite lookup_insert. by destruct (decide (kv.1 = k)).
Qed.

Lemma last_write_elem ws k v : last_write ws k = Some v → (k, v) ∈ ws.
Proof.
  induction ws as [|[k' v'] ws IH]; [done|]. cbn [last_write].
  destruct (last_write ws k) as [v0|].
  - intros [= ->]. right. by apply IH.
  - cbn. destruct (decide (k' = k)) as [->|]; [|done]. intros [= ->]. left.
Qed.

Lemma last_write_None ws k : k ∉ ws.*1 → last_write ws k = None.
Proof.
  induction ws as [|[k' v'] ws IH]; [done|]. cbn [last_write fmap list_fmap].
  rewrite not_elem_of_cons. intros [Hne Hk]. rewrite (IH Hk).
  cbn. by rewrite decide_False.
Qed.

Lemma apply_writes_twice ws m : apply_writes ws (apply_writes ws m) = apply_writes ws m.
Proof.
  apply map_eq. intros k. rewrite !lookup_apply_writes.
  by destruct (last_write ws k).
Qed.

(** ** Facts about the two tables, by enumeration *)

Lemma android_entry_cases (size : Z) (density : string) :
  (size, density) ∈ android_sizes →
  (size, density) = (36, "ldpi") ∨ (size, density) = (48, "mdpi") ∨
  (size, density) = (72, "hdpi") ∨ (size, density) = (96, "xhdpi") ∨
  (size, density) = (144, "xxhdpi") ∨ (size, density) = (192, "xxxhdpi").
Proof. unfold android_sizes. rewrite !elem_of_cons, elem_of_nil. tauto. Qed.

Lemma favicon_size_cases (size : Z) :
  size ∈ favicon_sizes →
  size = 16 ∨ size = 32 ∨ size = 48 ∨ size = 64 ∨ size = 128 ∨ size = 256.
Proof. unfold favicon_sizes. rewrite !elem_of_cons, elem_of_nil. tauto. Qed.

Ltac each_android_entry H :=
  apply android_entry_cases in H;
  destruct H as [H|[H|[H|[H|[H|H]]]]]; injection H as -> ->.

Ltac each_favicon_size H :=
  apply favicon_size_cases in H;
  destruct H as [H|[H|[H|[H|[H|H]]]]]; subst.

Lemma padded_size_table size density :
  (size, density) ∈ android_sizes →
  PyFloat.to_int (PyFloat.mul (PyFloat.of_int size) PyFloat.lit_0_7)
  = Some (padded_of size).
Proof. intros Hin. each_android_entry Hin; vm_compute; reflexivity. Qed.

Lemma icon_dir_in_prefixes size density :
  (size, density) ∈ android_sizes →
  icon_dir_of density ∈ prefixes (icon_dir_of density).
Proof.
  intros Hin. each_android_entry Hin;
    apply (bool_decide_unpack _); vm_compute; reflexivity.
Qed.

Lemma android_file_parent size density name :
  (size, density) ∈ android_sizes →
  name ∈ ["/ic_launcher.png"; "/ic_launcher_round.png"; "/ic_launcher_foreground.png"] →
  parent_dir (icon_dir_of density +:+ name) = icon_dir_of density.
Proof.
  intros Hin Hname. rewrite !elem_of_cons, elem_of_nil in Hname.
  destruct Hname as [->|[->|[->|[]]]]; each_android_entry Hin; vm_compute; reflexivity.
Qed.

Lemma favicon_parent size : size ∈ favicon_sizes → parent_dir (favicon_path size) = web_dir.
Proof. intros Hin. each_favicon_size Hin; vm_compute; reflexivity. Qed.

Lemma dirs_files_disjoint p : p ∈ android_dirs → p ∉ output_files.
Proof.
  revert p. apply Forall_forall.
  apply (bool_decide_unpack _). vm_compute. reflexivity.
Qed.

Lemma web_dir_not_output : web_dir ∉ output_files.
Proof. apply (bool_decide_unpack _). vm_compute. reflexivity. Qed.



Lemma prefixes_android_dirs size density d :
  (size, density) ∈ android_sizes → d ∈ prefixes (icon_dir_of density) → d ∈ android_dirs.
Proof.
  intros Hin Hd. unfold android_dirs. apply list_elem_of_bind.
  exists (size, density). done.
Qed.

Lemma android_file_output size density name :
  (size, density) ∈ android_sizes →
  name ∈ ["/ic_launcher.png"; "/ic_launcher_round.png"; "/ic_launcher_foreground.png"] →
  icon_dir_of density +:+ name ∈ output_files.
Proof.
  intros Hin Hname. unfold output_files, android_files.
  apply elem_of_app. left. apply list_elem_of_bind. exists (size, density).
  split; [|done].
  exact (list_elem_of_fmap_2 (λ n, icon_dir_of density +:+ n) _ _ Hname).
Qed.

Lemma favicon_output size : size ∈ favicon_sizes → favicon_path size ∈ output_files.
Proof.
  intros Hin. unfold output_files. apply elem_of_app. right.
  by apply list_elem_of_fmap_2.
Qed.

(** ** Readiness is kept by the writes of a run *)

Lemma expected_dir d : d ∈ android_dirs → expected_write (d, Dir).
Proof. done. Qed.

Lemma expected_file f content : f ∈ output_files → expected_write (f, File content).
Proof. done. Qed.

Lemma fs_ready_insert_dir m d :
  fs_ready m → d ∈ android_dirs → fs_ready (<[d := Dir]> m).
Proof.
  intros [Hd Hf Hw] Hin. split.
  - intros d' Hd'. rewrite lookup_insert. case_decide; [by right | by apply Hd].
  - intros f Hf'. rewrite lookup_insert. case_decide; [|by apply Hf].
    subst. by apply dirs_files_disjoint in Hin.
  - rewrite lookup_insert. by case_decide.
Qed.

Lemma fs_ready_insert_file m f content :
  fs_ready m → f ∈ output_files → fs_ready (<[f := File content]> m).
Proof.
  intros [Hd Hf Hw] Hin. split.
  - intros d Hd'. rewrite lookup_insert. case_decide; [|by apply Hd].
    subst. by apply dirs_files_disjoint in Hd'.
  - intros f' Hf'. rewrite lookup_insert. case_decide; [done | by apply Hf].
  - rewrite lookup_insert. case_decide; [|done].
    subst. by apply web_dir_not_output in Hin.
Qed.

Lemma fs_ready_apply_writes ws : ∀ m,
  fs_ready m → Forall expected_write ws → fs_ready (apply_writes ws m).
Proof.
  induction ws as [|[k v] ws IH]; intros m Hm Hws; [done|].
  apply Forall_cons in Hws as [Hkv Hws]. rewrite apply_writes_cons.
  apply IH; [|done]. unfold expected_write in Hkv. cbn [fst snd] in *.
  destruct v; [by apply fs_ready_insert_file | by apply fs_ready_insert_dir].
Qed.

(** ** One step at a time *)

Lemma last_write_dirs ds d : d ∈ ds → last_write ((λ d, (d, Dir)) <$> ds) d = Some Dir.
Proof.
  induction ds as [|d' ds IH]; [by rewrite elem_of_nil|].
  rewrite elem_of_cons. intros Hd. cbn [fmap list_fmap last_write fst snd].
  destruct (decide (d ∈ ds)) as [Hin|Hnin].
  - by rewrite IH.
  - destruct Hd as [->|]; [|done].
    destruct (last_write _ _) as [v|] eqn:Hl.
    + apply last_write_elem, list_elem_of_fmap in Hl as (? & [= <- <-] & ?). done.
    + by rewrite decide_True.
Qed.

Lemma makedirs_along_ok ds : ∀ m out,
  (∀ d, d ∈ ds → m !! d = None ∨ m !! d = Some Dir) →
  makedirs_along ds (World m out)
  = (World (apply_writes ((λ d, (d, Dir)) <$> ds) m) out, Return tt).
Proof.
  induction ds as [|d ds IH]; intros m out Hds; [done|].
  cbn [makedirs_along fs stdout fmap list_fmap]. rewrite apply_writes_cons. cbn [fst snd].
  destruct (Hds d) as [Hd|Hd]; [left|..]; rewrite Hd.
  - apply IH. intros d' Hd'. rewrite lookup_insert.
    case_decide; [by right|]. apply Hds. by right.
  - rewrite (insert_id m d Dir Hd). apply IH. intros d' Hd'. apply Hds. by right.
Qed.

Lemma print_ok line m out :
  print line (World m out) = (World m (out ++ [line]), Return tt).
Proof. reflexivity. Qed.

Lemma for_each_print lines : ∀ m out,
  for_each lines print (World m out) = (World m (out ++ lines), Return tt).
Proof.
  induction lines as [|line lines IH]; intros m out.
  - cbn. by rewrite app_nil_r.
  - cbn [for_each]. rewrite (bind_return _ _ _ _ _ (print_ok _ _ _)).
    rewrite IH. by rewrite <- app_assoc.
Qed.

Section Steps.

Context `{Imaging} {naming : Naming}.

Lemma Image_load_ok source logo w :
  decode source = Some logo → Image_load source w = (w, Return logo).
Proof. unfold Image_load. by intros ->. Qed.

Lemma save_ok im p m out :
  parent_dir p ≠ EmptyString →
  m !! parent_dir p = Some Dir → m !! p ≠ Some Dir →
  mode im ∈ png_outmodes →
  save im p (World m out) = (World (<[p := File (png_encode im)]> m) out, Return tt).
Proof.
  intros Hne Hparent Hp Hmode. unfold save. cbn [fs stdout].
  rewrite decide_False by done. rewrite Hparent.
  rewrite bool_decide_eq_true_2 by done.
  destruct (m !! p) as [[]|]; done.
Qed.

Lemma foreground_mode logo size : mode (foreground_of logo size) = "RGBA".
Proof. reflexivity. Qed.

Lemma android_entry_ok source logo size density m out :
  decode source = Some logo →
  (size, density) ∈ android_sizes → fs_ready m → mode logo ∈ png_outmodes →
  android_entry source (size, density) (World m out)
  = (World (apply_writes (android_writes logo (size, density)) m)
           (out ++ [android_line (size, density)]), Return tt).
Proof.
  intros Hdec Hin Hm Hmode.
  assert (Hnames : ∀ name,
    name ∈ ["/ic_launcher.png"; "/ic_launcher_round.png"; "/ic_launcher_foreground.png"] →
    parent_dir (icon_dir_of density +:+ name) = icon_dir_of density
    ∧ icon_dir_of density +:+ name ∈ output_files).
  { intros name Hname. split;
      [by eapply android_file_parent | by eapply android_file_output]. }
  assert (Hdir : icon_dir_of density ≠ EmptyString).
  { clear -Hin. each_android_entry Hin; done. }
  assert (Hicon : icon_dir_of density ∈ android_dirs).
  { eapply prefixes_android_dirs; [done|]. by eapply icon_dir_in_prefixes. }
  unfold android_entry, os_makedirs. fold (icon_dir_of density).
  erewrite bind_return; last first.
  { apply makedirs_along_ok. intros d Hd. apply (ready_dirs _ Hm).
    exact (prefixes_android_dirs size density d Hin Hd). }
  erewrite (bind_return (padding_layout size)); last first.
  { unfold padding_layout, int. rewrite (padded_size_table _ _ Hin). reflexivity. }
  erewrite (bind_return (Image_load source)); [|by apply Image_load_ok].
  cbn [fst snd].
  fold (offset_of size). fold (foreground_source logo size).
  fold (foreground_of logo size).
  set (dirs := (λ d, (d, Dir)) <$> prefixes (icon_dir_of density)).
  assert (Hdirs : Forall expected_write dirs).
  { apply Forall_forall. intros [k v] (d & [= -> ->] & Hd)%list_elem_of_fmap.
    apply expected_dir. exact (prefixes_android_dirs size density d Hin Hd). }
  pose proof (fs_ready_apply_writes _ _ Hm Hdirs) as Hm1.
  assert (Hd1 : apply_writes dirs m !! icon_dir_of density = Some Dir).
  { rewrite lookup_apply_writes. unfold dirs. rewrite last_write_dirs; [done|].
    by eapply icon_dir_in_prefixes. }
  destruct (Hnames "/ic_launcher.png") as [Hp1 Ho1]; [repeat constructor|].
  destruct (Hnames "/ic_launcher_round.png") as [Hp2 Ho2]; [repeat constructor|].
  destruct (Hnames "/ic_launcher_foreground.png") as [Hp3 Ho3]; [repeat constructor|].
  assert (Hkeep : ∀ f content (m' : gmap string node), f ∈ output_files →
    m' !! icon_dir_of density = Some Dir →
    <[f := File content]> m' !! icon_dir_of density = Some Dir).
  { intros f content m' Hf Hm'. rewrite lookup_insert_ne; [done|].
    intros ->. by apply dirs_files_disjoint in Hicon. }
  erewrite bind_return; last first.
  { apply save_ok; rewrite ?Hp1; try done.
    - by apply (ready_files _ Hm1).
    - by rewrite resize_mode. }
  pose proof (fs_ready_insert_file _ _ (png_encode (resize logo (size, size))) Hm1 Ho1) as Hm2.
  erewrite bind_return; last first.
  { apply save_ok; rewrite ?Hp2; try done.
    - by apply Hkeep.
    - by apply (ready_files _ Hm2).
    - by rewrite resize_mode. }
  pose proof (fs_ready_insert_file _ _ (png_encode (resize logo (size, size))) Hm2 Ho2) as Hm3.
  erewrite bind_return; last first.
  { apply save_ok; rewrite ?Hp3; try done.
    - apply Hkeep; [done|]. by apply Hkeep.
    - by apply (ready_files _ Hm3).
    - rewrite foreground_mode. repeat constructor. }
  rewrite print_ok. unfold android_writes, entry_writes, android_line. cbn [fst snd].
  rewrite apply_writes_app. reflexivity.
Qed.

Lemma favicon_entry_ok source logo size m out :
  decode source = Some logo →
  size ∈ favicon_sizes → fs_ready m → mode logo ∈ png_outmodes →
  favicon_entry source size (World m out)
  = (World (apply_writes (favicon_writes logo size) m)
           (out ++ [favicon_line size]), Return tt).
Proof.
  intros Hdec Hin Hm Hmode. unfold favicon_entry. fold (favicon_path size).
  erewrite (bind_return (Image_load source)); [|by apply Image_load_ok].
  erewrite bind_return; last first.
  { apply save_ok; rewrite ?(favicon_parent _ Hin); try done.
    - apply (ready_web _ Hm).
    - apply (ready_files _ Hm). by apply favicon_output.
    - by rewrite resize_mode. }
  by rewrite print_ok.
Qed.

Lemma android_writes_expected logo size density :
  (size, density) ∈ android_sizes →
  Forall expected_write (android_writes logo (size, density)).
Proof.
  intros Hin. unfold android_writes, entry_writes. cbn [fst snd].
  apply Forall_app. split.
  - apply Forall_forall. intros [k v] (d & [= -> ->] & Hd)%list_elem_of_fmap.
    apply expected_dir. exact (prefixes_android_dirs size density d Hin Hd).
  - repeat apply Forall_cons_2; [..|apply Forall_nil_2]; apply expected_file;
      (eapply android_file_output; [done|repeat constructor]).
Qed.

Lemma favicon_writes_expected logo size :
  size ∈ favicon_sizes → Forall expected_write (favicon_writes logo size).
Proof.
  intros Hin. apply Forall_cons_2; [|apply Forall_nil_2].
  apply expected_file. by apply favicon_output.
Qed.

(** A loop whose body performs a known list of expected writes and prints
    one line performs them all, in order. *)
Lemma for_each_ok {A} (body : A → M unit) (writes : A → list (string * node))
    (line : A → string) (l : list A) :
  (∀ x m out, x ∈ l → fs_ready m →
     body x (World m out)
     = (World (apply_writes (writes x) m) (out ++ [line x]), Return tt)) →
  (∀ x, x ∈ l → Forall expected_write (writes x)) →
  ∀ m out, fs_ready m →
    for_each l body (World m out)
    = (World (apply_writes (l ≫= writes) m) (out ++ map line l), Return tt).
Proof.
  induction l as [|x l IH]; intros Hbody Hexp m out Hm.
  - cbn. by rewrite app_nil_r.
  - cbn [for_each]. erewrite bind_return; [|apply Hbody; [left|done]].
    rewrite IH.
    + rewrite bind_cons, apply_writes_app. cbn [map]. by rewrite <- app_assoc.
    + intros. apply Hbody; [by right|done].
    + intros. apply Hexp. by right.
    + apply fs_ready_apply_writes; [done|]. apply Hexp. left.
Qed.

Lemma all_writes_unfold logo :
  all_writes logo
  = (android_sizes ≫= android_writes logo) ++ (favicon_sizes ≫= favicon_writes logo).
Proof. unfold all_writes, writes_with, android_writes, favicon_writes. reflexivity. Qed.

Lemma all_writes_expected logo : Forall expected_write (all_writes logo).
Proof.
  rewrite all_writes_unfold.
  apply Forall_app. split; apply Forall_bind, Forall_forall.
  - intros [size density] Hin. by apply android_writes_expected.
  - intros size Hin. by apply favicon_writes_expected.
Qed.

(** On a ready file system with a readable source whose mode PNG can
    store, a run returns normally, having performed [all_writes] and
    printed [all_lines]. *)
Theorem generate_app_icons_ok logo_path m out source logo :
  fs_ready m →
  m !! resolve logo_path = Some (File source) → decode source = Some logo →
  mode logo ∈ png_outmodes →
  generate_app_icons logo_path (World m out)
  = (World (apply_writes (all_writes logo) m) (out ++ all_lines), Return tt).
Proof.
  intros Hm Hsrc Hdec Hmode. unfold generate_app_icons.
  erewrite bind_return; last first.
  { unfold os_path_exists. cbn [fs]. rewrite Hsrc.
    rewrite bool_decide_eq_true_2 by eauto. reflexivity. }
  cbn [negb].
  erewrite bind_return; last first.
  { unfold Image_open. cbn [fs].
    rewrite Hsrc, (decode_identified _ _ Hdec). reflexivity. }
  erewrite bind_return; last first.
  { apply (for_each_ok _ (android_writes logo) android_line); [| |done].
    - intros [size density] m' out' Hin Hm'. by apply android_entry_ok.
    - intros [size density] Hin. by apply android_writes_expected. }
  erewrite bind_return; last first.
  { apply (for_each_ok _ (favicon_writes logo) favicon_line).
    - intros size m' out' Hin Hm'. by apply favicon_entry_ok.
    - intros size Hin. by apply favicon_writes_expected.
    - apply fs_ready_apply_writes; [done|]. apply Forall_bind, Forall_forall.
      intros [size density] Hin. by apply android_writes_expected. }
  rewrite for_each_print, all_writes_unfold. unfold all_lines.
  by rewrite apply_writes_app, <- !app_assoc.
Qed.

End Steps.

(** ** Where the writes of a run land *)

Lemma last_write_is_Some ws k : k ∈ ws.*1 → is_Some (last_write ws k).
Proof.
  induction ws as [|[k' v'] ws IH]; [by rewrite elem_of_nil|].
  cbn [fmap list_fmap last_write fst snd]. rewrite elem_of_cons. intros Hk.
  destruct (last_write ws k) as [v|] eqn:Hl; [by eexists|].
  destruct Hk as [->|Hk].
  - rewrite decide_True by done. by eexists.
  - apply IH in Hk as [? [=]].
Qed.

Lemma readyb_ready ws : readyb ws = true → fs_ready (apply_writes ws ∅).
Proof.
  unfold readyb. rewrite !andb_true_iff, !forallb_forall. intros [[Hd Hf] Hw].
  split.
  - intros d Hin%list_elem_of_In. specialize (Hd d Hin).
    rewrite lookup_apply_writes, lookup_empty.
    destruct (last_write ws d) as [[]|]; auto. done.
  - intros f Hin%list_elem_of_In. specialize (Hf f Hin).
    rewrite lookup_apply_writes, lookup_empty.
    destruct (last_write ws f) as [[]|]; done.
  - rewrite lookup_apply_writes. destruct (last_write ws web_dir) as [[]|]; done.
Qed.

Lemma android_dirs_elem d :
  d ∈ android_dirs →
  ∃ size density, (size, density) ∈ android_sizes ∧ d ∈ prefixes (icon_dir_of density).
Proof.
  unfold android_dirs. intros ([size density] & Hd & Hin)%list_elem_of_bind. eauto.
Qed.


Section Landing.

Variables icon foreground favicon : Z → list byte.

Lemma launcher_written size density :
  (size, density) ∈ android_sizes →
  last_write (writes_with icon foreground favicon)
             (icon_dir_of density +:+ "/ic_launcher.png")
  = Some (File (icon size)).
Proof. intros Hin. each_android_entry Hin; vm_compute; reflexivity. Qed.

Lemma round_written size density :
  (size, density) ∈ android_sizes →
  last_write (writes_with icon foreground favicon)
             (icon_dir_of density +:+ "/ic_launcher_round.png")
  = Some (File (icon size)).
Proof. intros Hin. each_android_entry Hin; vm_compute; reflexivity. Qed.

Lemma foreground_written size density :
  (size, density) ∈ android_sizes →
  last_write (writes_with icon foreground favicon)
             (icon_dir_of density +:+ "/ic_launcher_foreground.png")
  = Some (File (foreground size)).
Proof. intros Hin. each_android_entry Hin; vm_compute; reflexivity. Qed.

Lemma favicon_written size :
  size ∈ favicon_sizes →
  last_write (writes_with icon foreground favicon) (favicon_path size)
  = Some (File (favicon size)).
Proof. intros Hin. each_favicon_size Hin; vm_compute; reflexivity. Qed.

End Landing.

Section Outputs.

Context `{Imaging}.


Lemma android_dirs_written logo d :
  d ∈ android_dirs → last_write (all_writes logo) d = Some Dir.
Proof.
  intros Hd. destruct (last_write_is_Some (all_writes logo) d) as [v Hv].
  - apply list_elem_of_fmap. exists (d, Dir). split; [done|].
    rewrite all_writes_unfold. apply elem_of_app. left.
    destruct (android_dirs_elem d Hd) as (size & density & Hin & Hpre).
    apply list_elem_of_bind. exists (size, density). split; [|done].
    unfold android_writes, entry_writes. apply elem_of_app. left.
    exact (list_elem_of_fmap_2 (λ d, (d, Dir)) _ _ Hpre).
  - rewrite Hv. f_equal. destruct v as [content|]; [|done].
    apply last_write_elem in Hv.
    pose proof (all_writes_expected logo) as Hexp.
    rewrite Forall_forall in Hexp. specialize (Hexp _ Hv).
    unfold expected_write in Hexp. cbn [fst snd] in Hexp.
    by apply dirs_files_disjoint in Hd.
Qed.


(** ** The foreground layer *)

Lemma foreground_source_width logo size :
  width (foreground_source logo size) = padded_of size.
Proof.
  unfold foreground_source. case_bool_decide.
  - by rewrite convert_width, resize_width.
  - by rewrite resize_width.
Qed.

Lemma foreground_source_height logo size :
  height (foreground_source logo size) = padded_of size.
Proof.
  unfold foreground_source. case_bool_decide.
  - by rewrite convert_height, resize_height.
  - by rewrite resize_height.
Qed.


End Outputs.

Lemma pixel_at_new m w h color x y :
  0 ≤ x < w → 0 ≤ y < h → pixel_at (Image_new m (w, h) color) x y = Some color.
Proof.
  intros Hx Hy. unfold pixel_at, Image_new. cbn [pixels fst snd].
  rewrite bool_decide_eq_true_2 by lia.
  rewrite lookup_replicate_2 by lia. cbn.
  by rewrite lookup_replicate_2 by lia.
Qed.


(** ** The small implementation *)

Lemma raw_logo_decodes : Raw.decode Raw.logo_bytes = Some Raw.logo.
Proof. vm_compute. reflexivity. Qed.

(** ** The padding layout *)

(** [0.7] is the double nearest to 7/10, and lies below it. *)
Lemma lit_0_7_nearest :
  PyFloat.lit_0_7 = PyFloat.div (PyFloat.of_int 7) (PyFloat.of_int 10).
Proof. vm_compute. reflexivity. Qed.

(** The product is rounded to a double before [int] truncates it, so
    outside the table the result can fall below the exact quotient:
    [int(90 * 0.7)] is 62, not 63. *)
Example padded_size_90 :
  PyFloat.to_int (PyFloat.mul (PyFloat.of_int 90) PyFloat.lit_0_7) = Some 62.
Proof. vm_compute. reflexivity. Qed.

Lemma padding_layout_ok size density w :
  (size, density) ∈ android_sizes →
  padding_layout size w = (w, Return (padded_of size, offset_of size)).
Proof.
  intros Hin. unfold padding_layout, int. rewrite (padded_size_table _ _ Hin).
  reflexivity.
Qed.

(** C3: for every entry of the Android table the layout computed in lines
    33-34 is [paddedSize = floor (7 * pixelSize / 10)] and
    [offset = floor ((pixelSize - paddedSize) / 2)]; the floors are stated
    by their defining inequalities over the integers. *)
Theorem padding_layout_table size density w :
  (size, density) ∈ android_sizes →
  ∃ padded offset,
    padding_layout size w = (w, Return (padded, offset)) ∧
    padded = padded_of size ∧ offset = offset_of size ∧
    10 * padded ≤ 7 * size < 10 * (padded + 1) ∧
    2 * offset ≤ size - padded < 2 * (offset + 1).
Proof.
  intros Hin. exists (padded_of size), (offset_of size).
  split; [by eapply padding_layout_ok|].
  do 2 (split; [reflexivity|]).
  split.
  - unfold padded_of. pose proof (Z.mul_div_le (7 * size) 10).
    pose proof (Z.mul_succ_div_gt (7 * size) 10). lia.
  - unfold offset_of. generalize (padded_of size). intros p.
    pose proof (Z.mul_div_le (size - p) 2).
    pose proof (Z.mul_succ_div_gt (size - p) 2). lia.
Qed.

Lemma padding_layout_table_witness :
  ∃ padded offset,
    padding_layout 48 (World ∅ []) = (World ∅ [], Return (padded, offset)) ∧
    padded = padded_of 48 ∧ offset = offset_of 48 ∧
    10 * padded ≤ 7 * 48 < 10 * (padded + 1) ∧
    2 * offset ≤ 48 - padded < 2 * (offset + 1).
Proof.
  apply (padding_layout_table 48 "mdpi" (World ∅ [])).
  unfold android_sizes. right. left.
Defined.

(** C4: for every entry of the Android table the computed layout keeps
    [offset * 2 + paddedSize <= pixelSize]. *)
Theorem padding_fits size density w :
  (size, density) ∈ android_sizes →
  ∃ padded offset,
    padding_layout size w = (w, Return (padded, offset)) ∧
    offset * 2 + padded ≤ size.
Proof.
  intros Hin. exists (padded_of size), (offset_of size).
  split; [by eapply padding_layout_ok|].
  unfold offset_of. pose proof (Z.mul_div_le (size - padded_of size) 2). lia.
Qed.

Lemma padding_fits_witness :
  ∃ padded offset,
    padding_layout 36 (World ∅ []) = (World ∅ [], Return (padded, offset)) ∧
    offset * 2 + padded ≤ 36.
Proof.
  apply (padding_fits 36 "ldpi" (World ∅ [])).
  unfold android_sizes. left.
Defined.

(** ** The icon set *)

Section IconSet.

Context `{Imaging} {naming : Naming}.

Lemma output_files_written logo f :
  f ∈ output_files → ∃ content, last_write (all_writes logo) f = Some (File content).
Proof.
  unfold output_files, android_files, all_writes.
  intros [Hf|Hf]%elem_of_app.
  - apply list_elem_of_bind in Hf as ([size density] & Hf & Hin).
    cbn [snd] in Hf. rewrite !elem_of_cons, elem_of_nil in Hf.
    destruct Hf as [->|[->|[->|[]]]]; eexists.
    + by eapply launcher_written.
    + by eapply round_written.
    + by eapply foreground_written.
  - apply list_elem_of_fmap in Hf as (size & -> & Hin).
    eexists. by apply favicon_written.
Qed.

(** C2: when nothing exists at the source path the call prints the
    path and the recommended format, returns normally, and leaves the
    file system exactly as it was. *)
Theorem missing_logo_soft_fail logo_path m out :
  m !! resolve logo_path = None →
  generate_app_icons logo_path (World m out)
  = (World m (out ++ ["Please add your logo as: " +:+ logo_path;
                      "Recommended: 512x512 PNG with transparent background"]),
     Return tt).
Proof.
  intros Hnone. unfold generate_app_icons.
  erewrite bind_return; last first.
  { unfold os_path_exists. cbn [fs]. rewrite Hnone.
    rewrite bool_decide_eq_false_2 by (intros [? [=]]). reflexivity. }
  cbn [negb]. erewrite bind_return; [|apply print_ok].
  rewrite print_ok. by rewrite <- app_assoc.
Qed.

Section Run.

Variables (logo_path : string) (m : gmap string node) (out : list string).
Variables (source : list byte) (logo : Image).
Hypothesis Hready : fs_ready m.
Hypothesis Hsource : m !! resolve logo_path = Some (File source).
Hypothesis Hdecode : decode source = Some logo.
Hypothesis Hmode : mode logo ∈ png_outmodes.

Let run_ok := generate_app_icons_ok logo_path m out source logo
                Hready Hsource Hdecode Hmode.


(** C5: for every density [ic_launcher.png] and
    [ic_launcher_round.png] hold the same bytes. *)
Theorem launcher_round_identical size density :
  (size, density) ∈ android_sizes →
  ∃ m' out' content,
    generate_app_icons logo_path (World m out) = (World m' out', Return tt) ∧
    m' !! (icon_dir_of density +:+ "/ic_launcher.png") = Some (File content) ∧
    m' !! (icon_dir_of density +:+ "/ic_launcher_round.png") = Some (File content).
Proof.
  intros Hin. eexists _, _, _. split; [exact run_ok|].
  rewrite !lookup_apply_writes. unfold all_writes.
  rewrite (launcher_written _ _ _ _ _ Hin), (round_written _ _ _ _ _ Hin).
  done.
Qed.

(** C6: [ic_launcher.png] of an entry of the Android table is the PNG
    of a [size] x [size] image, and every favicon size has its file,
    the PNG of a [size] x [size] image. *)
Theorem icon_dimensions :
  ∃ m' out',
    generate_app_icons logo_path (World m out) = (World m' out', Return tt) ∧
    (∀ size density, (size, density) ∈ android_sizes →
       ∃ im, m' !! (icon_dir_of density +:+ "/ic_launcher.png")
               = Some (File (png_encode im)) ∧
             width im = size ∧ height im = size) ∧
    (∀ size, size ∈ favicon_sizes →
       ∃ im, m' !! ("www/assets/images/favicon-" +:+ pretty size +:+ ".png")
               = Some (File (png_encode im)) ∧
             width im = size ∧ height im = size).
Proof.
  eexists _, _. split; [exact run_ok|]. split.
  - intros size density Hin. exists (resize logo (size, size)).
    rewrite lookup_apply_writes. unfold all_writes.
    rewrite (launcher_written _ _ _ _ _ Hin).
    by rewrite resize_width, resize_height.
  - intros size Hin. exists (resize logo (size, size)).
    fold (favicon_path size).
    rewrite lookup_apply_writes. unfold all_writes.
    rewrite (favicon_written _ _ _ _ Hin).
    by rewrite resize_width, resize_height.
Qed.

(** C7: a second run on the outcome of the first, with the source
    still as it was, returns normally and leaves every file, byte for
    byte, as the first run wrote it. *)
Theorem rerun_identical :
  ∃ m1 out1,
    generate_app_icons logo_path (World m out) = (World m1 out1, Return tt) ∧
    (m1 !! resolve logo_path = m !! resolve logo_path →
     ∃ out2, generate_app_icons logo_path (World m1 out1)
             = (World m1 out2, Return tt)).
Proof.
  eexists _, _. split; [exact run_ok|]. intros Hsame.
  eexists. rewrite generate_app_icons_ok with (source := source) (logo := logo).
  - by rewrite apply_writes_twice.
  - apply fs_ready_apply_writes; [done|apply all_writes_expected].
  - by rewrite Hsame.
  - done.
  - done.
Qed.



(** C10: after a run [mipmap-mdpi/ic_launcher.png] and
    [favicon-48.png] hold the same bytes, the PNG of the source
    resized to 48 x 48. *)
Theorem mdpi_icon_is_favicon_48 :
  ∃ m' out',
    generate_app_icons logo_path (World m out) = (World m' out', Return tt) ∧
    m' !! "android/app/src/main/res/mipmap-mdpi/ic_launcher.png"
      = Some (File (png_encode (resize logo (48, 48)))) ∧
    m' !! "www/assets/images/favicon-48.png"
      = Some (File (png_encode (resize logo (48, 48)))).
Proof.
  eexists _, _. split; [exact run_ok|].
  rewrite !lookup_apply_writes. unfold all_writes. split.
  - rewrite (launcher_written _ _ _ 48 "mdpi"); [done|].
    unfold android_sizes. right. left.
  - rewrite (favicon_written _ _ _ 48); [done|].
    unfold favicon_sizes. do 2 right. left.
Qed.

End Run.

End IconSet.

(** ** Runs on a small project tree

    The theorems above at the small imaging implementation, on a tree that
    holds nothing but [www/assets/images] and a 1 x 1 logo. *)

(** The mdpi layout of the specification's example: a 33 x 33 logo at
    offset 7 in a 48 x 48 canvas. *)
Example mdpi_layout : padded_of 48 = 33 ∧ offset_of 48 = 7.
Proof. split; reflexivity. Qed.

(** The red logo pasted on the mdpi canvas: red inside the square,
    transparent outside. *)
Example mdpi_foreground_pixels :
  pixel_at (foreground_of (H := raw_imaging) Raw.logo 48) 7 7 = Some [255; 0; 0; 255]
  ∧ pixel_at (foreground_of (H := raw_imaging) Raw.logo 48) 39 39 = Some [255; 0; 0; 255]
  ∧ pixel_at (foreground_of (H := raw_imaging) Raw.logo 48) 6 7 = Some [0; 0; 0; 0]
  ∧ pixel_at (foreground_of (H := raw_imaging) Raw.logo 48) 40 39 = Some [0; 0; 0; 0].
Proof. vm_compute. repeat split; reflexivity. Qed.

Lemma demo_ready logo_path :
  readyb (Raw.project_tree logo_path) = true → fs_ready (demo_fs logo_path).
Proof. apply readyb_ready. Qed.


Lemma missing_logo_soft_fail_witness :
  generate_app_icons (H := raw_imaging) (naming := posix_naming) demo_path (World ∅ [])
  = (World ∅ ["Please add your logo as: " +:+ demo_path;
              "Recommended: 512x512 PNG with transparent background"],
     Return tt).
Proof.
  apply (missing_logo_soft_fail (H := raw_imaging) (naming := posix_naming) demo_path ∅ []).
  vm_compute. reflexivity.
Defined.

Lemma launcher_round_identical_witness :
  ∃ m' out' content,
    generate_app_icons (H := raw_imaging) (naming := posix_naming) demo_path (World (demo_fs demo_path) [])
    = (World m' out', Return tt) ∧
    m' !! (icon_dir_of "xhdpi" +:+ "/ic_launcher.png") = Some (File content) ∧
    m' !! (icon_dir_of "xhdpi" +:+ "/ic_launcher_round.png") = Some (File content).
Proof.
  apply (launcher_round_identical (H := raw_imaging) (naming := posix_naming)
           demo_path (demo_fs demo_path) [] Raw.logo_bytes Raw.logo) with (size := 96).
  - apply demo_ready. vm_compute. reflexivity.
  - vm_compute. reflexivity.
  - vm_compute. reflexivity.
  - apply (bool_decide_unpack _). vm_compute. reflexivity.
  - apply (bool_decide_unpack _). vm_compute. reflexivity.
Defined.

Lemma icon_dimensions_witness :
  ∃ m' out',
    generate_app_icons (H := raw_imaging) (naming := posix_naming) demo_path (World (demo_fs demo_path) [])
    = (World m' out', Return tt) ∧
    (∀ size density, (size, density) ∈ android_sizes →
       ∃ im, m' !! (icon_dir_of density +:+ "/ic_launcher.png")
               = Some (File (Raw.encode im)) ∧
             width im = size ∧ height im = size) ∧
    (∀ size, size ∈ favicon_sizes →
       ∃ im, m' !! ("www/assets/images/favicon-" +:+ pretty size +:+ ".png")
               = Some (File (Raw.encode im)) ∧
             width im = size ∧ height im = size).
Proof.
  apply (icon_dimensions (H := raw_imaging) (naming := posix_naming)
           demo_path (demo_fs demo_path) [] Raw.logo_bytes Raw.logo).
  - apply demo_ready. vm_compute. reflexivity.
  - vm_compute. reflexivity.
  - vm_compute. reflexivity.
  - apply (bool_decide_unpack _). vm_compute. reflexivity.
Defined.

Lemma rerun_identical_witness :
  ∃ m1 out1,
    generate_app_icons (H := raw_imaging) (naming := posix_naming) demo_path (World (demo_fs demo_path) [])
    = (World m1 out1, Return tt) ∧
    (m1 !! demo_path = demo_fs demo_path !! demo_path →
     ∃ out2, generate_app_icons (H := raw_imaging) (naming := posix_naming) demo_path (World m1 out1)
             = (World m1 out2, Return tt)).
Proof.
  apply (rerun_identical (H := raw_imaging) (naming := posix_naming)
           demo_path (demo_fs demo_path) [] Raw.logo_bytes Raw.logo).
  - apply demo_ready. vm_compute. reflexivity.
  - vm_compute. reflexivity.
  - vm_compute. reflexivity.
  - apply (bool_decide_unpack _). vm_compute. reflexivity.
Defined.



Lemma mdpi_icon_is_favicon_48_witness :
  ∃ m' out',
    generate_app_icons (H := raw_imaging) (naming := posix_naming) demo_path (World (demo_fs demo_path) [])
    = (World m' out', Return tt) ∧
    m' !! "android/app/src/main/res/mipmap-mdpi/ic_launcher.png"
      = Some (File (Raw.encode (Raw.resize Raw.logo (48, 48)))) ∧
    m' !! "www/assets/images/favicon-48.png"
      = Some (File (Raw.encode (Raw.resize Raw.logo (48, 48)))).
Proof.
  apply (mdpi_icon_is_favicon_48 (H := raw_imaging) (naming := posix_naming)
           demo_path (demo_fs demo_path) [] Raw.logo_bytes Raw.logo).
  - apply demo_ready. vm_compute. reflexivity.
  - vm_compute. reflexivity.
  - vm_compute. reflexivity.
  - apply (bool_decide_unpack _). vm_compute. reflexivity.
Defined.


(** C8 as stated fails for a source that declares a transparent colour (a
    PNG with a [tRNS] chunk): the resized logo is ["RGB"], without alpha
    band, and its conversion to ["RGBA"] gives the pixels of that colour
    alpha 0.  With a red logo whose file declares red transparent, what is
    pasted for [mipmap-ldpi] has alpha 0 at [(0, 0)]. *)
Lemma keyed_logo_counterexample :
  ¬ (∀ m' out' pasted,
       generate_app_icons (H := raw_imaging) (naming := posix_naming) demo_path
         (World (apply_writes keyed_tree ∅) [])
       = (World m' out', Return tt) →
       has_alpha (mode (Raw.resize Raw.keyed_logo (padded_of 36, padded_of 36)))
       = false →
       m' !! (icon_dir_of "ldpi" +:+ "/ic_launcher_foreground.png")
       = Some (File (Raw.encode
             (paste (Image_new "RGBA" (36, 36) [0; 0; 0; 0]) pasted
                    (offset_of 36, offset_of 36) pasted))) →
       pasted = Raw.convert (Raw.resize Raw.keyed_logo (padded_of 36, padded_of 36))
                            "RGBA" →
       ∀ x y px, pixel_at pasted x y = Some px → px !! 3%nat = Some 255).
Proof.
  intros Hclaim.
  assert (Hrun : generate_app_icons (H := raw_imaging) (naming := posix_naming)
                   demo_path (World (apply_writes keyed_tree ∅) [])
                 = (World (apply_writes (all_writes (H := raw_imaging) Raw.keyed_logo)
                                        (apply_writes keyed_tree ∅))
                          ([] ++ all_lines), Return tt)).
  { apply (generate_app_icons_ok (H := raw_imaging) (naming := posix_naming)
             demo_path _ [] Raw.keyed_logo_bytes).
    - apply readyb_ready. vm_compute. reflexivity.
    - vm_compute. reflexivity.
    - vm_compute. reflexivity.
    - apply (bool_decide_unpack _). vm_compute. reflexivity. }
  specialize (Hclaim _ _
    (Raw.convert (Raw.resize Raw.keyed_logo (padded_of 36, padded_of 36)) "RGBA")
    Hrun).
  assert (Hzero : Some 0 = Some 255); [|discriminate Hzero].
  apply (Hclaim ltac:(vm_compute; reflexivity)) with (x := 0) (y := 0)
                                                     (px := [255; 0; 0; 0]).
  - rewrite lookup_apply_writes. unfold all_writes.
    rewrite (foreground_written _ _ _ 36 "ldpi") by (unfold android_sizes; left).
    reflexivity.
  - reflexivity.
  - vm_compute. reflexivity.
Qed.

(** ** What lands inside the square *)

Lemma DIV255_product c a :
  0 ≤ c ≤ 255 → 0 ≤ a ≤ 255 → 0 ≤ DIV255 (c * a) ≤ c.
Proof.
  intros Hc Ha. unfold DIV255, SHIFTFORDIV255. rewrite !Z.shiftr_div_pow2 by lia.
  change (2 ^ 8) with 256.
  assert (0 ≤ c * a ≤ 255 * c) by nia.
  split.
  - apply Z.div_pos; [|lia]. assert (0 ≤ (c * a + 128) `div` 256) by (apply Z.div_pos; lia). lia.
  - assert ((c * a + 128) `div` 256 < c + 1).
    { apply Z.div_lt_upper_bound; lia. }
    assert (((c * a + 128) `div` 256 + (c * a + 128)) `div` 256 < c + 1); [|lia].
    apply Z.div_lt_upper_bound; lia.
Qed.

Lemma BLEND_on_clear a c :
  0 ≤ c ≤ 255 → 0 ≤ a ≤ 255 → BLEND a 0 c = DIV255 (c * a).
Proof.
  intros Hc Ha. unfold BLEND. rewrite Z.mul_0_l, Z.add_0_l.
  pose proof (DIV255_product c a Hc Ha). apply Z.mod_small. lia.
Qed.

Lemma DIV255_opaque c : 0 ≤ c ≤ 255 → DIV255 (c * 255) = c.
Proof.
  intros Hc. unfold DIV255, SHIFTFORDIV255. rewrite !Z.shiftr_div_pow2 by lia.
  change (2 ^ 8) with 256.
  assert (H1 : (c * 255 + 128) `div` 256 = c - (if decide (c ≤ 128) then 0 else 1)).
  { case_decide.
    - symmetry. apply (Z.div_unique _ _ _ (128 - c)); lia.
    - symmetry. apply (Z.div_unique _ _ _ (384 - c)); lia. }
  rewrite H1. case_decide.
  - symmetry. apply Z.div_unique with (r := 128); lia.
  - symmetry. apply Z.div_unique with (r := 127); lia.
Qed.

(** [DIV255] is the division by 255 rounded to nearest. *)
Lemma DIV255_rounds x : 0 ≤ x ≤ 255 * 255 → DIV255 x = (x + 127) `div` 255.
Proof.
  intros Hx. unfold DIV255, SHIFTFORDIV255. rewrite !Z.shiftr_div_pow2 by lia.
  change (2 ^ 8) with 256.
  pose proof (Z.mul_div_le (x + 127) 255).
  pose proof (Z.mul_succ_div_gt (x + 127) 255).
  pose proof (Z.mul_div_le (x + 128) 256).
  pose proof (Z.mul_succ_div_gt (x + 128) 256).
  symmetry.
  apply (Z.div_unique _ _ _ ((x + 128) `div` 256 + (x + 128)
                             - 256 * ((x + 127) `div` 255))); lia.
Qed.

Lemma DIV255_square_lt a : 0 < a < 255 → DIV255 (a * a) < a.
Proof.
  intros Ha. unfold DIV255, SHIFTFORDIV255. rewrite !Z.shiftr_div_pow2 by lia.
  change (2 ^ 8) with 256.
  assert (H1 : (a * a + 128) `div` 256 ≤ a - 1).
  { apply Z.lt_succ_r. apply Z.div_lt_upper_bound; nia. }
  apply Z.div_lt_upper_bound; [lia|]. nia.
Qed.

Lemma pixel_at_paste_inside dst src box mask x y out inp m :
  box.1 ≤ x < box.1 + width src → box.2 ≤ y < box.2 + height src →
  pixel_at dst x y = Some out →
  pixel_at src (x - box.1) (y - box.2) = Some inp →
  pixel_at mask (x - box.1) (y - box.2) = Some m →
  pixel_at (paste dst src box mask) x y = Some (zip_with (BLEND (alpha m)) out inp).
Proof.
  intros Hx Hy Hout Hin Hm. unfold pixel_at in Hout |- *. unfold paste. cbn [pixels].
  case_bool_decide as Hxy; [|done].
  rewrite list_lookup_imap.
  destruct (pixels dst !! Z.to_nat y) as [row|]; [|done]. cbn in *.
  rewrite list_lookup_imap. rewrite Hout. cbn.
  rewrite !Z2Nat.id by lia. rewrite bool_decide_eq_true_2 by done.
  by rewrite Hin, Hm.
Qed.

Lemma table_layout_inside size density :
  (size, density) ∈ android_sizes →
  0 ≤ offset_of size ∧ 0 < padded_of size ∧ offset_of size + padded_of size ≤ size.
Proof. intros Hin. each_android_entry Hin; vm_compute; repeat split; discriminate. Qed.

Section Inside.

Context `{Imaging}.

Lemma foreground_inside logo size density i j px :
  (size, density) ∈ android_sizes →
  0 ≤ i < padded_of size → 0 ≤ j < padded_of size →
  pixel_at (foreground_source logo size) i j = Some px →
  pixel_at (foreground_of logo size) (offset_of size + i) (offset_of size + j)
  = Some (zip_with (BLEND (alpha px)) [0; 0; 0; 0] px).
Proof.
  intros Hin Hi Hj Hpx.
  destruct (table_layout_inside _ _ Hin) as (Hoff & Hpad & Hfit).
  unfold foreground_of.
  apply pixel_at_paste_inside; cbn [fst snd].
  - rewrite foreground_source_width. lia.
  - rewrite foreground_source_height. lia.
  - apply pixel_at_new; lia.
  - by replace (offset_of size + i - offset_of size) with i by lia;
      replace (offset_of size + j - offset_of size) with j by lia.
  - by replace (offset_of size + i - offset_of size) with i by lia;
      replace (offset_of size + j - offset_of size) with j by lia.
Qed.

(** X3: the resized logo is never clipped, and each of its pixels lands
    on the canvas with every band, alpha included, multiplied by the
    pixel's own alpha over 255 and rounded to nearest: pixel [(i, j)]
    with bands [r, g, b, a] gives [r a / 255, g a / 255, b a / 255,
    a a / 255] at [(offset + i, offset + j)], which is on the canvas. *)
Theorem logo_pixel_composited logo size density i j r g b a :
  (size, density) ∈ android_sizes →
  0 ≤ i < padded_of size → 0 ≤ j < padded_of size →
  pixel_at (foreground_source logo size) i j = Some [r; g; b; a] →
  0 ≤ r ≤ 255 → 0 ≤ g ≤ 255 → 0 ≤ b ≤ 255 → 0 ≤ a ≤ 255 →
  0 ≤ offset_of size + i < size ∧ 0 ≤ offset_of size + j < size ∧
  pixel_at (foreground_of logo size) (offset_of size + i) (offset_of size + j)
  = Some [(r * a + 127) `div` 255; (g * a + 127) `div` 255;
          (b * a + 127) `div` 255; (a * a + 127) `div` 255].
Proof.
  intros Hin Hi Hj Hpx Hr Hg Hb Ha.
  destruct (table_layout_inside _ _ Hin) as (Hoff & Hpad & Hfit).
  split; [lia|]. split; [lia|].
  rewrite (foreground_inside _ _ _ _ _ _ Hin Hi Hj Hpx).
  cbn [zip_with]. unfold alpha. cbn [nth].
  rewrite !BLEND_on_clear by done. by rewrite !DIV255_rounds by nia.
Qed.

(** X4: an opaque pixel of the resized logo is copied to the foreground
    unchanged. *)
Theorem opaque_pixel_copied logo size density i j r g b :
  (size, density) ∈ android_sizes →
  0 ≤ i < padded_of size → 0 ≤ j < padded_of size →
  pixel_at (foreground_source logo size) i j = Some [r; g; b; 255] →
  0 ≤ r ≤ 255 → 0 ≤ g ≤ 255 → 0 ≤ b ≤ 255 →
  pixel_at (foreground_of logo size) (offset_of size + i) (offset_of size + j)
  = Some [r; g; b; 255].
Proof.
  intros Hin Hi Hj Hpx Hr Hg Hb.
  rewrite (foreground_inside _ _ _ _ _ _ Hin Hi Hj Hpx).
  cbn [zip_with]. unfold alpha. cbn [nth].
  rewrite !BLEND_on_clear by lia. by rewrite !DIV255_opaque by lia.
Qed.

(** X5: a fully transparent pixel of the resized logo leaves the canvas
    fully transparent and black, whatever its colour. *)
Theorem transparent_pixel_dropped logo size density i j r g b :
  (size, density) ∈ android_sizes →
  0 ≤ i < padded_of size → 0 ≤ j < padded_of size →
  pixel_at (foreground_source logo size) i j = Some [r; g; b; 0] →
  0 ≤ r ≤ 255 → 0 ≤ g ≤ 255 → 0 ≤ b ≤ 255 →
  pixel_at (foreground_of logo size) (offset_of size + i) (offset_of size + j)
  = Some [0; 0; 0; 0].
Proof.
  intros Hin Hi Hj Hpx Hr Hg Hb.
  rewrite (foreground_inside _ _ _ _ _ _ Hin Hi Hj Hpx).
  cbn [zip_with]. unfold alpha. cbn [nth].
  rewrite !BLEND_on_clear by lia. by rewrite !Z.mul_0_r.
Qed.

(** X6: the logo is its own mask, so a partly transparent pixel loses
    opacity: its foreground alpha [DIV255 (a a)] is strictly below [a]. *)
Theorem partial_alpha_decreases logo size density i j r g b a :
  (size, density) ∈ android_sizes →
  0 ≤ i < padded_of size → 0 ≤ j < padded_of size →
  pixel_at (foreground_source logo size) i j = Some [r; g; b; a] →
  0 < a < 255 →
  ∃ px, pixel_at (foreground_of logo size) (offset_of size + i) (offset_of size + j)
        = Some px ∧ alpha px < a.
Proof.
  intros Hin Hi Hj Hpx Ha.
  eexists. split; [exact (foreground_inside _ _ _ _ _ _ Hin Hi Hj Hpx)|].
  cbn [zip_with]. unfold alpha. cbn [nth].
  rewrite BLEND_on_clear by lia. by apply DIV255_square_lt.
Qed.

End Inside.

(** ** The run as its sequence of actions *)

Lemma for_each_app {A} (body : A → M unit) (l1 l2 : list A) w :
  for_each (l1 ++ l2) body w = bind (for_each l1 body) (λ _, for_each l2 body) w.
Proof.
  revert w. induction l1 as [|x l1 IH]; intros w; [done|].
  cbn [for_each app]. unfold bind.
  destruct (body x w) as [w1 [[]|e]]; [|done]. by rewrite IH.
Qed.

Lemma for_each_ext_in {A} (f g : A → M unit) (l : list A) :
  (∀ x, x ∈ l → ∀ w, f x w = g x w) → ∀ w, for_each l f w = for_each l g w.
Proof.
  induction l as [|x l IH]; intros Hfg w; [done|].
  cbn [for_each]. unfold bind. rewrite (Hfg x) by left.
  destruct (g x w) as [w1 [[]|e]]; [|done]. apply IH. intros. apply Hfg. by right.
Qed.

Lemma for_each_bind_list {A B} (g : A → list B) (body : B → M unit) (l : list A) w :
  for_each (l ≫= g) body w = for_each l (λ x, for_each (g x) body) w.
Proof.
  revert w. induction l as [|x l IH]; intros w; [done|].
  rewrite bind_cons, for_each_app. cbn [for_each]. unfold bind.
  destruct (for_each (g x) body w) as [w1 [[]|e]]; [|done]. apply IH.
Qed.


Section Trace.

Context `{Imaging} {naming : Naming}.

Lemma makedirs_along_actions ds w :
  makedirs_along ds w = for_each (mkdir_actions ds) perform w.
Proof.
  revert w. induction ds as [|d ds IH]; intros w; [done|].
  cbn [makedirs_along mkdir_actions for_each perform]. unfold bind.
  destruct (fs w !! d) as [[content|]|].
  - by destruct ds.
  - apply IH.
  - apply IH.
Qed.

Lemma android_entry_actions source logo size density w :
  decode source = Some logo →
  (size, density) ∈ android_sizes →
  android_entry source (size, density) w
  = for_each (entry_actions (resize logo (size, size)) (foreground_of logo size)
                            (size, density)) perform w.
Proof.
  intros Hdec Hin. unfold android_entry, entry_actions, os_makedirs. cbn [fst snd].
  fold (icon_dir_of density). rewrite for_each_app. unfold bind at 1 7.
  rewrite makedirs_along_actions.
  destruct (for_each _ perform w) as [w1 [[]|e]]; [|done].
  erewrite (bind_return (padding_layout size)); [|by eapply padding_layout_ok].
  erewrite (bind_return (Image_load source)); [|by apply Image_load_ok].
  cbn [fst snd for_each perform]. unfold bind.
  destruct (save _ _ w1) as [w2 [[]|e]]; [|done].
  destruct (save _ _ w2) as [w3 [[]|e]]; [|done].
  fold (offset_of size). fold (foreground_source logo size).
  fold (foreground_of logo size).
  destruct (save _ _ w3) as [w4 [[]|e]]; [|done].
  reflexivity.
Qed.

Lemma favicon_entry_actions source logo size w :
  decode source = Some logo →
  favicon_entry source size w
  = for_each (favicon_actions (resize logo (size, size)) size) perform w.
Proof.
  intros Hdec. unfold favicon_entry, favicon_actions.
  erewrite (bind_return (Image_load source)); [|by apply Image_load_ok].
  cbn [for_each perform]. unfold bind.
  fold (favicon_path size).
  destruct (save _ _ w) as [w1 [[]|e]]; [|done]. reflexivity.
Qed.

Lemma closing_actions w :
  for_each closing_lines print w = for_each (Print <$> closing_lines) perform w.
Proof.
  revert w. induction closing_lines as [|line lines IH]; intros w; [done|].
  cbn [for_each fmap list_fmap perform]. unfold bind.
  destruct (print line w) as [w1 [[]|e]]; [|done]. apply IH.
Qed.

(** Once the source is open, a run is the performance of its actions. *)
Lemma generate_app_icons_actions logo_path m out source logo :
  m !! resolve logo_path = Some (File source) → decode source = Some logo →
  generate_app_icons logo_path (World m out)
  = for_each (run_actions (λ size, resize logo (size, size)) (foreground_of logo)
                          (λ size, resize logo (size, size)))
             perform (World m out).
Proof.
  intros Hsrc Hdec. unfold generate_app_icons.
  erewrite bind_return; last first.
  { unfold os_path_exists. cbn [fs]. rewrite Hsrc.
    rewrite bool_decide_eq_true_2 by eauto. reflexivity. }
  cbn [negb].
  erewrite bind_return; last first.
  { unfold Image_open. cbn [fs].
    rewrite Hsrc, (decode_identified _ _ Hdec). reflexivity. }
  unfold run_actions, android_actions. rewrite for_each_app. unfold bind.
  rewrite for_each_bind_list.
  rewrite (for_each_ext_in (android_entry source)
             (λ entry, for_each (entry_actions (resize logo (entry.1, entry.1))
                                               (foreground_of logo entry.1) entry)
                                perform)); last first.
  { intros [size density] Hin w. by apply android_entry_actions. }
  destruct (for_each android_sizes _ _) as [w1 [[]|e]]; [|done].
  rewrite for_each_app. unfold bind. rewrite for_each_bind_list.
  rewrite (for_each_ext_in (favicon_entry source)
             (λ size, for_each (favicon_actions (resize logo (size, size)) size)
                               perform)); last first.
  { intros size Hin w. by apply favicon_entry_actions. }
  destruct (for_each favicon_sizes _ _) as [w2 [[]|e]]; [|done].
  apply closing_actions.
Qed.

(** *** Performing actions on a file system reached by known writes *)

Lemma perform_ok a ws m out :
  Forall (holds_req m) (req_of a ws) → mode_req a →
  perform a (World (apply_writes ws m) out)
  = (World (apply_writes (ws ++ write_of a) m) (out ++ line_of a), Return tt).
Proof.
  intros Hreq Hmode. destruct a as [d leaf|im p|line]; cbn [perform write_of line_of].
  - cbn [fs stdout]. rewrite lookup_apply_writes, apply_writes_app, app_nil_r.
    cbn [req_of] in Hreq. destruct (last_write ws d) as [[content|]|] eqn:Hw.
    + by apply Forall_cons in Hreq as [[] _].
    + rewrite apply_writes_cons. cbn [fst snd apply_writes foldl].
      rewrite insert_id; [done|]. by rewrite lookup_apply_writes, Hw.
    + apply Forall_cons in Hreq as [[Hm|Hm] _]; rewrite Hm; [done|].
      rewrite apply_writes_cons. cbn [fst snd apply_writes foldl].
      rewrite insert_id; [done|]. by rewrite lookup_apply_writes, Hw.
  - unfold save. cbn [fs stdout]. cbn [req_of] in Hreq.
    apply Forall_app in Hreq as [Hparent Htarget].
    rewrite apply_writes_app, app_nil_r.
    assert (Hp : (if decide (parent_dir p = EmptyString) then Some Dir
                  else apply_writes ws m !! parent_dir p) = Some Dir).
    { case_decide; [done|]. rewrite lookup_apply_writes.
      destruct (last_write ws (parent_dir p)) as [[content|]|]; [|done|].
      - by apply Forall_cons in Hparent as [[] _].
      - by apply Forall_cons in Hparent as [Hm _]. }
    rewrite Hp. rewrite bool_decide_eq_true_2 by done.
    assert (Ht : apply_writes ws m !! p ≠ Some Dir).
    { rewrite lookup_apply_writes. destruct (last_write ws p) as [[content|]|]; [done| |].
      - by apply Forall_cons in Htarget as [[] _].
      - by apply Forall_cons in Htarget as [Hm _]. }
    destruct (apply_writes ws m !! p) as [[content|]|]; done.
  - rewrite print_ok. by rewrite app_nil_r.
Qed.


(** The actions return normally exactly when the initial file system
    meets their requirements and every saved image has a mode PNG can
    store; the outcome is then the writes, in order. *)
Lemma perform_all_ok acts : ∀ ws m out,
  Forall (holds_req m) (reqs acts ws) → Forall mode_req acts →
  for_each acts perform (World (apply_writes ws m) out)
  = (World (apply_writes (ws ++ (acts ≫= write_of)) m) (out ++ (acts ≫= line_of)),
     Return tt).
Proof.
  induction acts as [|a acts IH]; intros ws m out Hreq Hmode.
  - cbn. by rewrite !app_nil_r.
  - cbn [reqs] in Hreq. apply Forall_app in Hreq as [Ha Hrest].
    apply Forall_cons in Hmode as [Hma Hmode].
    cbn [for_each]. erewrite bind_return; [|by apply perform_ok].
    rewrite IH by done. by rewrite !bind_cons, <- !app_assoc.
Qed.



Lemma perform_all_ok_start acts m out :
  Forall (holds_req m) (reqs acts []) → Forall mode_req acts →
  for_each acts perform (World m out)
  = (World (apply_writes (acts ≫= write_of) m) (out ++ (acts ≫= line_of)), Return tt).
Proof. intros Hreq Hmode. exact (perform_all_ok acts [] m out Hreq Hmode). Qed.



End Trace.

(** ** When a run completes, and where it stops *)


Section Completion.

Context `{Imaging}.

Variables icon foreground favicon : Z → Image.

Lemma run_reqs_ready :
  forallb ready_req (reqs (run_actions icon foreground favicon) []) = true.
Proof. vm_compute. reflexivity. Qed.














End Completion.

Lemma bind_raise {A B} (c : M A) (f : A → M B) w w' e :
  c w = (w', Raise e) → bind c f w = (w', Raise e).
Proof. unfold bind. by intros ->. Qed.



Lemma ldpi_dirs_writes `{Imaging} :
  mkdir_actions (prefixes (icon_dir_of "ldpi")) ≫= write_of
  = (λ d, (d, Dir)) <$> prefixes (icon_dir_of "ldpi").
Proof. vm_compute. reflexivity. Qed.






Section Stops.

Context `{Imaging} {naming : Naming}.

Lemma open_failure logo_path m out e :
  m !! resolve logo_path ≠ None →
  Image_open logo_path (World m out) = (World m out, Raise e) →
  generate_app_icons logo_path (World m out) = (World m out, Raise e).
Proof.
  intros Hsome Hopen. unfold generate_app_icons.
  erewrite bind_return; last first.
  { unfold os_path_exists. cbn [fs].
    rewrite bool_decide_eq_true_2; [reflexivity|].
    by destruct (m !! resolve logo_path); [eexists|]. }
  cbn [negb]. by apply bind_raise.
Qed.

(** X1: a directory at the source path passes the existence check, and
    [Image.open] raises; nothing is written or printed. *)
Theorem directory_source_raises logo_path m out :
  m !! resolve logo_path = Some Dir →
  generate_app_icons logo_path (World m out) = (World m out, Raise IsADirectoryError).
Proof.
  intros Hdir. apply open_failure; [by rewrite Hdir|].
  unfold Image_open. cbn [fs]. by rewrite Hdir.
Qed.

(** X2: a source file that Pillow does not recognise makes
    [Image.open] raise [UnidentifiedImageError]; nothing is written or
    printed. *)
Theorem unidentified_source_raises logo_path m out source :
  m !! resolve logo_path = Some (File source) → identify source = false →
  generate_app_icons logo_path (World m out)
  = (World m out, Raise UnidentifiedImageError).
Proof.
  intros Hsrc Hid. apply open_failure; [by rewrite Hsrc|].
  unfold Image_open. cbn [fs]. by rewrite Hsrc, Hid.
Qed.

(** The run of a source that has been opened. *)
Lemma generate_app_icons_opened logo_path m out source :
  m !! resolve logo_path = Some (File source) → identify source = true →
  generate_app_icons logo_path (World m out)
  = (for_each android_sizes (android_entry source) ;;;
     for_each favicon_sizes (favicon_entry source) ;;;
     for_each closing_lines print) (World m out).
Proof.
  intros Hsrc Hid. unfold generate_app_icons.
  erewrite bind_return; last first.
  { unfold os_path_exists. cbn [fs]. rewrite Hsrc.
    rewrite bool_decide_eq_true_2 by eauto. reflexivity. }
  cbn [negb].
  erewrite bind_return; last first.
  { unfold Image_open. cbn [fs]. rewrite Hsrc, Hid. reflexivity. }
  reflexivity.
Qed.

Lemma unreadable_source_run logo_path m out source :
  m !! resolve logo_path = Some (File source) → identify source = true →
  decode source = None →
  (∀ d, d ∈ prefixes (icon_dir_of "ldpi") → m !! d = None ∨ m !! d = Some Dir) →
  generate_app_icons logo_path (World m out)
  = (World (apply_writes ((λ d, (d, Dir)) <$> prefixes (icon_dir_of "ldpi")) m) out,
     Raise OSError).
Proof.
  intros Hsrc Hid Hdec Hdirs.
  rewrite (generate_app_icons_opened _ _ _ _ Hsrc Hid).
  apply bind_raise. unfold android_sizes. cbn [for_each]. apply bind_raise.
  unfold android_entry, os_makedirs. fold (icon_dir_of "ldpi").
  erewrite bind_return; [|by apply makedirs_along_ok].
  erewrite (bind_return (padding_layout 36)); last first.
  { apply (padding_layout_ok 36 "ldpi"). unfold android_sizes. left. }
  apply bind_raise. unfold Image_load. by rewrite Hdec.
Qed.

(** X16: a source file that Pillow recognises but whose pixel data it
    cannot read (a truncated file) passes [Image.open]; the directories
    down to [mipmap-ldpi] are made, then the first [resize] raises
    [OSError].  No file is written, nothing is printed, and every other
    path is as before. *)
Theorem unreadable_source_raises logo_path m out source :
  m !! resolve logo_path = Some (File source) → identify source = true →
  decode source = None →
  (∀ d, d ∈ prefixes (icon_dir_of "ldpi") → m !! d = None ∨ m !! d = Some Dir) →
  ∃ m',
    generate_app_icons logo_path (World m out) = (World m' out, Raise OSError) ∧
    (∀ d, d ∈ prefixes (icon_dir_of "ldpi") → m' !! d = Some Dir) ∧
    (∀ p, p ∉ prefixes (icon_dir_of "ldpi") → m' !! p = m !! p).
Proof.
  intros Hsrc Hid Hdec Hdirs. eexists. split; [|split].
  - by apply (unreadable_source_run _ _ _ source).
  - intros d Hd. rewrite lookup_apply_writes. by rewrite last_write_dirs.
  - intros p Hp. rewrite lookup_apply_writes. rewrite last_write_None; [done|].
    rewrite <- list_fmap_compose. by rewrite list_fmap_id.
Qed.













(** X11: the icons depend on the source bytes alone: two runs that read
    the same bytes, wherever the source is and whatever the trees held
    before, leave the same node at every directory and output path and
    print the same lines. *)
Theorem outputs_depend_only_on_source path1 path2 m1 m2 out1 out2 source logo :
  fs_ready m1 → fs_ready m2 →
  m1 !! resolve path1 = Some (File source) → m2 !! resolve path2 = Some (File source) →
  decode source = Some logo → mode logo ∈ png_outmodes →
  ∃ m1' m2' lines,
    generate_app_icons path1 (World m1 out1)
    = (World m1' (out1 ++ lines), Return tt) ∧
    generate_app_icons path2 (World m2 out2)
    = (World m2' (out2 ++ lines), Return tt) ∧
    ∀ p, p ∈ android_dirs ∨ p ∈ output_files → m1' !! p = m2' !! p.
Proof.
  intros Hr1 Hr2 Hs1 Hs2 Hdec Hmode. eexists _, _, _.
  split; [by eapply generate_app_icons_ok|].
  split; [by eapply generate_app_icons_ok|].
  intros p [Hp|Hp]; rewrite !lookup_apply_writes.
  - by rewrite android_dirs_written.
  - destruct (output_files_written logo p Hp) as [content Hw]. by rewrite Hw.
Qed.


(** X13: the console transcript of a completed run: one line per
    Android entry, one per favicon, then the five closing lines, after
    whatever was printed before. *)
Theorem run_transcript logo_path m out source logo :
  fs_ready m → m !! resolve logo_path = Some (File source) →
  decode source = Some logo → mode logo ∈ png_outmodes →
  ∃ m',
    generate_app_icons logo_path (World m out)
    = (World m'
         (out ++
          ["✅ Generated 36x36 icons for ldpi";
           "✅ Generated 48x48 icons for mdpi";
           "✅ Generated 72x72 icons for hdpi";
           "✅ Generated 96x96 icons for xhdpi";
           "✅ Generated 144x144 icons for xxhdpi";
           "✅ Generated 192x192 icons for xxxhdpi";
           "✅ Generated favicon-16.png";
           "✅ Generated favicon-32.png";
           "✅ Generated favicon-48.png";
           "✅ Generated favicon-64.png";
           "✅ Generated favicon-128.png";
           "✅ Generated favicon-256.png";
           newline +:+ "🎉 All app icons generated!";
           "📋 To use your own logo:";
           "   1. Replace www/assets/images/logo.png with your 512x512 PNG";
           "   2. Run: python generate-icons.py";
           "   3. Rebuild Android: npx cap build android"]),
       Return tt).
Proof.
  intros Hready Hsrc Hdec Hmode. eexists.
  erewrite generate_app_icons_ok by done. reflexivity.
Qed.

End Stops.

(** ** What no run does *)

Lemma same_kind_refl n : same_kind n n.
Proof. by destruct n. Qed.

Lemma same_kind_trans n1 n2 n3 : same_kind n1 n2 → same_kind n2 n3 → same_kind n1 n3.
Proof. by destruct n1, n2, n3. Qed.

Lemma grown_from_refl paths w : grown_from paths w w.
Proof.
  split; [done| |done]. intros p n Hp. exists n. split; [done|apply same_kind_refl].
Qed.

Lemma grown_from_trans paths w1 w2 w3 :
  grown_from paths w1 w2 → grown_from paths w2 w3 → grown_from paths w1 w3.
Proof.
  intros [Hf1 Hk1 Hs1] [Hf2 Hk2 Hs2]. split.
  - intros p Hp. by rewrite Hf2, Hf1.
  - intros p n Hn. destruct (Hk1 p n Hn) as (n' & Hn' & Hsame).
    destruct (Hk2 p n' Hn') as (n'' & Hn'' & Hsame').
    exists n''. split; [done|]. by eapply same_kind_trans.
  - by etrans.
Qed.

Lemma grown_from_mono paths paths' w w' :
  (∀ p, p ∈ paths → p ∈ paths') → grown_from paths w w' → grown_from paths' w w'.
Proof. intros Hsub [Hf Hk Hs]. split; [|done|done]. intros p Hp. apply Hf. auto. Qed.

Lemma grown_from_insert m out p n :
  (∀ n0, m !! p = Some n0 → same_kind n0 n) →
  grown_from [p] (World m out) (World (<[p := n]> m) out).
Proof.
  intros Hkind. split; cbn [fs stdout]; [| |done].
  - intros q Hq. apply lookup_insert_ne. intros ->. apply Hq. left.
  - intros q n0 Hn0. destruct (decide (p = q)) as [->|Hne].
    + exists n. rewrite lookup_insert_eq. split; [done|]. by apply Hkind.
    + exists n0. rewrite lookup_insert_ne by done. split; [done|apply same_kind_refl].
Qed.

Lemma near_exact_range : forallb near_exact (seqZ 0 4097) = true.
Proof. vm_compute. reflexivity. Qed.

(** X15: for every size up to 4096, not only those of the table, the
    double product [size * 0.7] truncates to the exact [7 size / 10]
    rounded down or to one less (as at 90), the padding is not negative
    and the padded logo with its padding on both sides fills the canvas
    up to one pixel. *)
Theorem padding_layout_in_range size w :
  0 ≤ size ≤ 4096 →
  ∃ padded offset,
    padding_layout size w = (w, Return (padded, offset)) ∧
    padded_of size - 1 ≤ padded ≤ padded_of size ∧
    0 ≤ offset ∧ size - 1 ≤ offset * 2 + padded ≤ size.
Proof.
  intros Hsize. pose proof near_exact_range as Hall.
  rewrite forallb_forall in Hall.
  assert (Hnear : near_exact size = true).
  { apply Hall, list_elem_of_In, elem_of_seqZ. lia. }
  unfold near_exact in Hnear. unfold padding_layout, int, bind.
  destruct (PyFloat.to_int _) as [padded|]; [|done].
  apply bool_decide_eq_true_1 in Hnear. unfold ret.
  exists padded, ((size - padded) `div` 2). split; [done|]. split; [done|].
  assert (padded_of size ≤ size).
  { unfold padded_of. apply Z.div_le_upper_bound; lia. }
  pose proof (Z.mul_div_le (size - padded) 2).
  pose proof (Z.mul_succ_div_gt (size - padded) 2).
  assert (0 ≤ (size - padded) `div` 2) by (apply Z.div_pos; lia). lia.
Qed.

Section Safety.

Context `{Imaging} {naming : Naming}.

Lemma perform_grown a w : grown_from (write_of a).*1 w (perform a w).1.
Proof.
  destruct w as [m out]. destruct a as [d leaf|im p|line];
    cbn [perform write_of fmap list_fmap fst].
  - cbn [fs stdout]. destruct (m !! d) as [[content|]|] eqn:Hd; cbn [fst].
    + apply grown_from_refl.
    + apply grown_from_refl.
    + apply grown_from_insert. intros n0 Hn0. by rewrite Hd in Hn0.
  - unfold save. cbn [fs stdout].
    destruct (if decide (parent_dir p = EmptyString) then Some Dir
              else m !! parent_dir p) as [[content|]|]; cbn [fst];
      [apply grown_from_refl| |apply grown_from_refl].
    destruct (m !! p) as [[content|]|] eqn:Hp; cbn [fst].
    + destruct (bool_decide (mode im ∈ png_outmodes)); cbn [fst];
        apply grown_from_insert; intros n0 Hn0; rewrite Hp in Hn0;
        by injection Hn0 as <-.
    + apply grown_from_refl.
    + destruct (bool_decide (mode im ∈ png_outmodes)); cbn [fst].
      * apply grown_from_insert. intros n0 Hn0. by rewrite Hp in Hn0.
      * apply grown_from_refl.
  - unfold print. cbn [fs stdout fst]. split; cbn [fs stdout].
    + done.
    + intros p n Hp. exists n. split; [done|apply same_kind_refl].
    + by apply prefix_app_r.
Qed.

Lemma for_each_grown acts : ∀ w,
  grown_from (acts ≫= write_of).*1 w (for_each acts perform w).1.
Proof.
  induction acts as [|a acts IH]; intros w; [apply grown_from_refl|].
  rewrite bind_cons, fmap_app. cbn [for_each]. unfold bind.
  pose proof (perform_grown a w) as Ha.
  destruct (perform a w) as [w1 [[]|e]]; cbn [fst] in Ha.
  - apply grown_from_trans with w1.
    + eapply grown_from_mono; [|exact Ha]. intros p Hp. apply elem_of_app. by left.
    + eapply grown_from_mono; [|apply IH]. intros p Hp. apply elem_of_app. by right.
  - cbn [fst]. eapply grown_from_mono; [|exact Ha].
    intros p Hp. apply elem_of_app. by left.
Qed.

Lemma run_paths icon foreground favicon :
  forallb (λ p, bool_decide (p ∈ android_dirs ++ output_files))
          (run_actions icon foreground favicon ≫= write_of).*1 = true.
Proof. vm_compute. reflexivity. Qed.

Lemma unreadable_run_world logo_path m out source :
  m !! resolve logo_path = Some (File source) → identify source = true →
  decode source = None →
  (generate_app_icons logo_path (World m out)).1
  = (for_each (mkdir_actions (prefixes (icon_dir_of "ldpi"))) perform (World m out)).1.
Proof.
  intros Hsrc Hid Hdec. rewrite (generate_app_icons_opened _ _ _ _ Hsrc Hid).
  unfold android_sizes. cbn [for_each]. unfold bind at 1 2 3.
  unfold android_entry, os_makedirs. fold (icon_dir_of "ldpi"). unfold bind at 1.
  rewrite makedirs_along_actions.
  destruct (for_each _ perform (World m out)) as [w1 [[]|e]]; [|done].
  erewrite (bind_return (padding_layout 36)); last first.
  { apply (padding_layout_ok 36 "ldpi"). unfold android_sizes. left. }
  unfold bind, Image_load. by rewrite Hdec.
Qed.

Lemma run_grown logo_path m out :
  grown_from (android_dirs ++ output_files) (World m out)
             (generate_app_icons logo_path (World m out)).1.
Proof.
  destruct (m !! resolve logo_path) as [[source|]|] eqn:Hsrc.
  - destruct (decode source) as [logo|] eqn:Hdec.
    + rewrite (generate_app_icons_actions _ _ _ _ _ Hsrc Hdec).
      eapply grown_from_mono; [|apply for_each_grown].
      intros p Hp. pose proof (run_paths (λ size, resize logo (size, size))
                                 (foreground_of logo)
                                 (λ size, resize logo (size, size))) as Hall.
      rewrite forallb_forall in Hall. apply list_elem_of_In, Hall in Hp.
      exact (bool_decide_eq_true_1 _ Hp).
    + destruct (identify source) eqn:Hid.
      * rewrite (unreadable_run_world _ _ _ _ Hsrc Hid Hdec).
        eapply grown_from_mono; [|apply for_each_grown].
        intros p. rewrite ldpi_dirs_writes, <- list_fmap_compose, list_fmap_id.
        intros Hp. apply elem_of_app. left.
        apply (prefixes_android_dirs 36 "ldpi"); [|done].
        unfold android_sizes. left.
      * rewrite open_failure with (e := UnidentifiedImageError).
        -- apply grown_from_refl.
        -- by rewrite Hsrc.
        -- unfold Image_open. cbn [fs]. by rewrite Hsrc, Hid.
  - rewrite open_failure with (e := IsADirectoryError).
    + apply grown_from_refl.
    + by rewrite Hsrc.
    + unfold Image_open. cbn [fs]. by rewrite Hsrc.
  - unfold generate_app_icons.
    erewrite bind_return; last first.
    { unfold os_path_exists. cbn [fs]. rewrite Hsrc.
      rewrite bool_decide_eq_false_2 by (intros [? [=]]). reflexivity. }
    cbn [negb]. erewrite bind_return; [|apply print_ok]. rewrite print_ok.
    cbn [fst]. split; cbn [fs stdout]; [done| |].
    + intros p n Hp. exists n. split; [done|apply same_kind_refl].
    + rewrite <- app_assoc. by apply prefix_app_r.
Qed.

(** X14: whatever a run meets and however it ends, by returning or by
    raising at any point, it changes no path besides the directories down
    to the six [mipmap-<density>] and the 24 icon files, it removes no
    node, it never turns a directory into a file or a file into a
    directory, and it only adds to the console. *)
Theorem any_run_only_grows logo_path m out w' r :
  generate_app_icons logo_path (World m out) = (w', r) →
  (∀ p, p ∉ android_dirs → p ∉ output_files → fs w' !! p = m !! p) ∧
  (∀ p n, m !! p = Some n → ∃ n', fs w' !! p = Some n' ∧ same_kind n n') ∧
  out `prefix_of` stdout w'.
Proof.
  intros Hrun. pose proof (run_grown logo_path m out) as [Hframe Hkind Hout].
  rewrite Hrun in Hframe, Hkind, Hout. cbn [fst fs stdout] in *.
  split; [|done]. intros p Hd Hf. apply Hframe.
  intros [?|?]%elem_of_app; done.
Qed.

End Safety.

(** ** More runs on small trees *)

Lemma tree_lookup ws k : apply_writes ws ∅ !! k = last_write ws k.
Proof. rewrite lookup_apply_writes, lookup_empty. by destruct (last_write ws k). Qed.

Lemma free_for_dirs_ok ws ds :
  free_for_dirs ws ds = true →
  ∀ d, d ∈ ds → apply_writes ws ∅ !! d = None ∨ apply_writes ws ∅ !! d = Some Dir.
Proof.
  unfold free_for_dirs. rewrite forallb_forall. intros Hall d Hd%list_elem_of_In.
  specialize (Hall d Hd). rewrite tree_lookup.
  destruct (last_write ws d) as [[content|]|]; auto. done.
Qed.



Ltac by_evaluation := apply (bool_decide_unpack _); vm_compute; reflexivity.

Lemma directory_source_raises_witness :
  generate_app_icons (H := raw_imaging) (naming := posix_naming) "www" (World (demo_fs demo_path) [])
  = (World (demo_fs demo_path) [], Raise IsADirectoryError).
Proof.
  apply (directory_source_raises (H := raw_imaging) (naming := posix_naming) "www" (demo_fs demo_path) []).
  vm_compute. reflexivity.
Defined.

Lemma unidentified_source_raises_witness :
  generate_app_icons (H := raw_imaging) (naming := posix_naming) "logo.png"
    (World (apply_writes (bare_tree []) ∅) [])
  = (World (apply_writes (bare_tree []) ∅) [], Raise UnidentifiedImageError).
Proof.
  apply (unidentified_source_raises (H := raw_imaging) (naming := posix_naming)
           "logo.png" _ [] []).
  - vm_compute. reflexivity.
  - vm_compute. reflexivity.
Defined.

Lemma unreadable_source_raises_witness :
  ∃ m',
    generate_app_icons (H := raw_imaging) (naming := posix_naming) "logo.png"
      (World (apply_writes (bare_tree truncated_logo_bytes) ∅) [])
    = (World m' [], Raise OSError) ∧
    (∀ d, d ∈ prefixes (icon_dir_of "ldpi") → m' !! d = Some Dir) ∧
    (∀ p, p ∉ prefixes (icon_dir_of "ldpi") →
          m' !! p = apply_writes (bare_tree truncated_logo_bytes) ∅ !! p).
Proof.
  apply (unreadable_source_raises (H := raw_imaging) (naming := posix_naming)
           "logo.png" _ [] truncated_logo_bytes).
  - vm_compute. reflexivity.
  - vm_compute. reflexivity.
  - vm_compute. reflexivity.
  - apply free_for_dirs_ok. vm_compute. reflexivity.
Defined.

Lemma logo_pixel_composited_witness :
  0 ≤ offset_of 36 + 0 < 36 ∧ 0 ≤ offset_of 36 + 0 < 36 ∧
  pixel_at (foreground_of (H := raw_imaging) glass_logo 36)
           (offset_of 36 + 0) (offset_of 36 + 0)
  = Some [(200 * 128 + 127) `div` 255; (100 * 128 + 127) `div` 255;
          (50 * 128 + 127) `div` 255; (128 * 128 + 127) `div` 255].
Proof.
  apply (logo_pixel_composited (H := raw_imaging) glass_logo 36 "ldpi").
  - unfold android_sizes. left.
  - by_evaluation.
  - by_evaluation.
  - vm_compute. reflexivity.
  - lia.
  - lia.
  - lia.
  - lia.
Defined.

Lemma opaque_pixel_copied_witness :
  pixel_at (foreground_of (H := raw_imaging) Raw.logo 48)
           (offset_of 48 + 0) (offset_of 48 + 0)
  = Some [255; 0; 0; 255].
Proof.
  apply (opaque_pixel_copied (H := raw_imaging) Raw.logo 48 "mdpi").
  - unfold android_sizes. right. left.
  - by_evaluation.
  - by_evaluation.
  - vm_compute. reflexivity.
  - lia.
  - lia.
  - lia.
Defined.

Lemma transparent_pixel_dropped_witness :
  pixel_at (foreground_of (H := raw_imaging) clear_logo 72)
           (offset_of 72 + 3) (offset_of 72 + 5)
  = Some [0; 0; 0; 0].
Proof.
  apply (transparent_pixel_dropped (H := raw_imaging) clear_logo 72 "hdpi" 3 5 200 100 50).
  - unfold android_sizes. do 2 right. left.
  - by_evaluation.
  - by_evaluation.
  - vm_compute. reflexivity.
  - lia.
  - lia.
  - lia.
Defined.

Lemma partial_alpha_decreases_witness :
  ∃ px, pixel_at (foreground_of (H := raw_imaging) glass_logo 36)
                 (offset_of 36 + 1) (offset_of 36 + 2) = Some px
        ∧ alpha px < 128.
Proof.
  apply (partial_alpha_decreases (H := raw_imaging) glass_logo 36 "ldpi" 1 2 200 100 50).
  - unfold android_sizes. left.
  - by_evaluation.
  - by_evaluation.
  - vm_compute. reflexivity.
  - lia.
Defined.





Lemma outputs_depend_only_on_source_witness :
  ∃ m1' m2' lines,
    generate_app_icons (H := raw_imaging) (naming := posix_naming) demo_path (World (demo_fs demo_path) [])
    = (World m1' ([] ++ lines), Return tt) ∧
    generate_app_icons (H := raw_imaging) (naming := posix_naming) "logo.png"
      (World (demo_fs "logo.png") ["earlier"])
    = (World m2' (["earlier"] ++ lines), Return tt) ∧
    ∀ p, p ∈ android_dirs ∨ p ∈ output_files → m1' !! p = m2' !! p.
Proof.
  apply (outputs_depend_only_on_source (H := raw_imaging) (naming := posix_naming) demo_path "logo.png"
           (demo_fs demo_path) (demo_fs "logo.png") [] ["earlier"]
           Raw.logo_bytes Raw.logo).
  - apply demo_ready. vm_compute. reflexivity.
  - apply demo_ready. vm_compute. reflexivity.
  - vm_compute. reflexivity.
  - vm_compute. reflexivity.
  - vm_compute. reflexivity.
  - by_evaluation.
Defined.


Lemma run_transcript_witness :
  ∃ m',
    generate_app_icons (H := raw_imaging) (naming := posix_naming) demo_path (World (demo_fs demo_path) [])
    = (World m'
         ([] ++
          ["✅ Generated 36x36 icons for ldpi";
           "✅ Generated 48x48 icons for mdpi";
           "✅ Generated 72x72 icons for hdpi";
           "✅ Generated 96x96 icons for xhdpi";
           "✅ Generated 144x144 icons for xxhdpi";
           "✅ Generated 192x192 icons for xxxhdpi";
           "✅ Generated favicon-16.png";
           "✅ Generated favicon-32.png";
           "✅ Generated favicon-48.png";
           "✅ Generated favicon-64.png";
           "✅ Generated favicon-128.png";
           "✅ Generated favicon-256.png";
           newline +:+ "🎉 All app icons generated!";
           "📋 To use your own logo:";
           "   1. Replace www/assets/images/logo.png with your 512x512 PNG";
           "   2. Run: python generate-icons.py";
           "   3. Rebuild Android: npx cap build android"]),
       Return tt).
Proof.
  apply (run_transcript (H := raw_imaging) (naming := posix_naming) demo_path (demo_fs demo_path) []
           Raw.logo_bytes Raw.logo).
  - apply demo_ready. vm_compute. reflexivity.
  - vm_compute. reflexivity.
  - vm_compute. reflexivity.
  - by_evaluation.
Defined.

Lemma any_run_only_grows_witness :
  (∀ p, p ∉ android_dirs → p ∉ output_files →
        fs (World (apply_writes blocked_tree ∅) []) !! p
        = apply_writes blocked_tree ∅ !! p) ∧
  (∀ p n, apply_writes blocked_tree ∅ !! p = Some n →
          ∃ n', fs (World (apply_writes blocked_tree ∅) []) !! p = Some n'
                ∧ same_kind n n') ∧
  [] `prefix_of` stdout (World (apply_writes blocked_tree ∅) []).
Proof.
  apply (any_run_only_grows (H := raw_imaging) (naming := posix_naming) "logo.png"
           (apply_writes blocked_tree ∅) [] _ (Raise NotADirectoryError)).
  vm_compute. reflexivity.
Defined.

Lemma padding_layout_in_range_witness :
  ∃ padded offset,
    padding_layout 90 (World ∅ []) = (World ∅ [], Return (padded, offset)) ∧
    padded_of 90 - 1 ≤ padded ≤ padded_of 90 ∧
    0 ≤ offset ∧ 90 - 1 ≤ offset * 2 + padded ≤ 90.
Proof. apply (padding_layout_in_range 90 (World ∅ [])). lia. Defined.
